(** * Hosted Fields internal frame: orchestration and tokenization

    A shallow embedding of [src/hosted-fields/internal/index.js]:
    the tokenization handler, the tokenization error classifier, the
    autofill subscriber, the merge of supported card brands and the merge
    of card data with caller supplied data.

    JavaScript values that cross the wire (service responses, raw
    failures) are untyped, so they are embedded as a small universe of
    values with property access that can throw.  Collaborators that live
    in other files of the repository are fields of the [Collaborators]
    class; effects on collaborators are recorded as events. *)

From Stdlib Require Import ZArith String DecimalString.
From stdpp Require Import base option list gmap strings.

Open Scope Z_scope.

(** ** JavaScript values *)

Module Js.

(** Numbers are integers: HTTP statuses, gateway codes, years.  Strings
    are sequences of 8-bit code units.  Objects are property tables in key
    order and hold data only (no accessors, no methods of their own);
    arrays are lists. *)
#[warnings="-register-all"]
Inductive value : Type :=
| VUndefined
| VNull
| VBool (b : bool)
| VNum (n : Z)
| VStr (s : string)
| VArr (elems : list value)
| VObj (props : list (string * value)).

Abbreviation props := (list (string * value)).

(** Abrupt completion: a [throw] carries the thrown value. *)
Inductive completion (A : Type) : Type :=
| Normal (a : A)
| Throw (exn : value).
Arguments Normal {A} a.
Arguments Throw {A} exn.

#[export] Instance completion_ret : MRet completion := fun A a => Normal a.
#[export] Instance completion_bind : MBind completion := fun A B k c =>
  match c with
  | Normal a => k a
  | Throw e => Throw e
  end.

Definition TypeError (message : string) : value :=
  VObj [("name", VStr "TypeError"); ("message", VStr message)]%string.

(** Own property of a property table: the first entry with that key. *)
Fixpoint own (o : props) (key : string) : option value :=
  match o with
  | [] => None
  | (k, v) :: rest => if String.eqb k key then Some v else own rest key
  end.

(** [o[key] = v] on a property table: overwrite in place, or append. *)
Fixpoint assign_prop (o : props) (key : string) (v : value) : props :=
  match o with
  | [] => [(key, v)]
  | (k, w) :: rest =>
      if String.eqb k key then (k, v) :: rest
      else (k, w) :: assign_prop rest key v
  end.

Definition string_of_Z (n : Z) : string := NilZero.string_of_int (Z.to_int n).
Definition string_of_nat (n : nat) : string := NilZero.string_of_uint (Nat.to_uint n).

(** A property key that is a canonical array index. *)
Definition array_index (key : string) : option nat :=
  match NilEmpty.uint_of_string key with
  | Some u =>
      let i := Nat.of_uint u in
      if String.eqb (string_of_nat i) key then Some i else None
  | None => None
  end.

(** [v[key]] and [v.key].  Reading a property of [undefined] or [null]
    throws a TypeError.  Inherited (prototype) properties other than
    [length] read as [undefined]: none of the keys the code reads is one
    of them. *)
Definition get (v : value) (key : string) : completion value :=
  match v with
  | VUndefined | VNull =>
      Throw (TypeError "Cannot read properties of undefined or null")
  | VObj o => Normal (default VUndefined (own o key))
  | VArr elems =>
      if String.eqb key "length" then Normal (VNum (Z.of_nat (length elems)))
      else match array_index key with
           | Some i => Normal (nth i elems VUndefined)
           | None => Normal VUndefined
           end
  | VStr s =>
      if String.eqb key "length" then Normal (VNum (Z.of_nat (String.length s)))
      else match array_index key with
           | Some i =>
               Normal (match String.get i s with
                       | Some c => VStr (String c EmptyString)
                       | None => VUndefined
                       end)
           | None => Normal VUndefined
           end
  | VBool _ | VNum _ => Normal VUndefined
  end.

(** ToBoolean. *)
Definition truthy (v : value) : bool :=
  match v with
  | VUndefined | VNull => false
  | VBool b => b
  | VNum n => negb (n =? 0)
  | VStr s => negb (String.eqb s "")
  | VArr _ | VObj _ => true
  end.

(** [v === n] for a number literal [n]. *)
Definition strict_equals_num (v : value) (n : Z) : bool :=
  match v with
  | VNum m => m =? n
  | _ => false
  end.

Definition join (sep : string) (l : list string) : string :=
  match l with
  | [] => ""
  | s :: rest => fold_left (fun acc t => acc +:+ sep +:+ t) rest s
  end%string.

(** ToString, as used to turn a value into a property key.  Integers
    print in decimal (exact below 10^21, where JavaScript switches to
    exponent notation).  A property table prints through the inherited
    [toString]; tables that shadow [toString] or [valueOf] are outside
    the model. *)
Fixpoint ToString (v : value) : string :=
  match v with
  | VUndefined => "undefined"
  | VNull => "null"
  | VBool true => "true"
  | VBool false => "false"
  | VNum n => string_of_Z n
  | VStr s => s
  | VArr elems =>
      join "," (List.map (fun e => match e with
                                   | VUndefined | VNull => ""
                                   | _ => ToString e
                                   end) elems)
  | VObj _ => "[object Object]"
  end%string.

(** ToNumber; [None] is NaN.  [StringToNumber] is the engine's parser of
    numeric strings and is left uninterpreted. *)
Definition ToNumber (StringToNumber : string -> option Z) (v : value) : option Z :=
  match v with
  | VUndefined => None
  | VNull => Some 0
  | VBool b => Some (if b then 1 else 0)
  | VNum n => Some n
  | VStr s => StringToNumber s
  | VArr _ | VObj _ => StringToNumber (ToString v)
  end.

(** [v < n] for a number literal [n]: false when [v] converts to NaN. *)
Definition less_than_num (StringToNumber : string -> option Z) (v : value) (n : Z) : bool :=
  match ToNumber StringToNumber v with
  | Some m => m <? n
  | None => false
  end.

End Js.
Import Js.

(** ** Collaborators from other files of the repository *)

(** An entry of [shared/errors] or of [constants.tokenizationErrorCodes]:
    the options a BraintreeError is built from. *)
Record ErrorDescriptor : Type := {
  err_type : string;
  err_code : string;
  err_message : string
}.

(** Modelled from the spec: the constructor of [lib/braintree-error], whose
    source is missing.  A classified error is the record
    [{kind, code, message, details}] of the data model; the source names
    the kind [type] (see the literal built for FIELDS_INVALID). *)
Definition new_BraintreeError (options : ErrorDescriptor) (details : value) : props :=
  [("type", VStr (err_type options));
   ("code", VStr (err_code options));
   ("message", VStr (err_message options));
   ("details", details)]%string.

Class Collaborators : Type := {
  (** the engine's numeric-string parser, used by [<] *)
  StringToNumber : string -> option Z;
  (** [shared/errors] *)
  HOSTED_FIELDS_FIELDS_EMPTY : ErrorDescriptor;
  HOSTED_FIELDS_FIELDS_INVALID : ErrorDescriptor;
  HOSTED_FIELDS_FAILED_TOKENIZATION : ErrorDescriptor;
  HOSTED_FIELDS_TOKENIZATION_NETWORK_ERROR : ErrorDescriptor;
  (** [constants.tokenizationErrorCodes]: gateway code to taxonomy entry *)
  tokenizationErrorCodes : gmap string ErrorDescriptor;
  (** [BraintreeError.findRootError]; it may throw *)
  findRootError : value -> completion value;
  (** [lib/convert-to-braintree-error] *)
  convertToBraintreeError : value -> ErrorDescriptor -> value;
  (** [./format-card-request-data] *)
  formatCardRequestData : gmap string value -> props;
  (** [./normalize-card-type] *)
  normalizeCardType : string -> string
}.

(** ** The tokenization error classifier *)

Section Classifier.
Context `{env : Collaborators}.

(** [err.details && err.details.httpStatus] *)
Definition status_of (err : value) : completion value :=
  details ← get err "details";
  if truthy details then get details "httpStatus" else Normal details.

(** [rootError.fieldErrors[0].fieldErrors[0].code] *)
Definition nested_code (rootError : value) : completion value :=
  outer ← get rootError "fieldErrors";
  first ← get outer "0";
  inner ← get first "fieldErrors";
  leaf ← get inner "0";
  get leaf "code".

(** The [try { ... } catch (e) { }] block: the values of [rootError] and
    [code] once it is left.  Both start out undefined; an exception
    abandons the block and keeps what was assigned so far. *)
Definition extract (err : value) : value * value :=
  match findRootError err with
  | Throw _ => (VUndefined, VUndefined)
  | Normal rootError =>
      match nested_code rootError with
      | Normal code => (rootError, code)
      | Throw _ => (rootError, VUndefined)
      end
  end.

(** [new BraintreeError(d)] followed by [.details = {originalError: err}] *)
Definition with_original_error (d : ErrorDescriptor) (err : value) : value :=
  VObj (assign_prop (new_BraintreeError d VUndefined) "details"
          (VObj [("originalError", err)]%string)).

Definition formatTokenizationError (err : value) : completion value :=
  status ← status_of err;
  if strict_equals_num status 403 then
    Normal err
  else if less_than_num StringToNumber status 500 then
    let '(rootError, code) := extract err in
    match tokenizationErrorCodes !! ToString code with
    | Some entry => Normal (convertToBraintreeError rootError entry)
    | None => Normal (with_original_error HOSTED_FIELDS_FAILED_TOKENIZATION err)
    end
  else
    Normal (with_original_error HOSTED_FIELDS_TOKENIZATION_NETWORK_ERROR err).

End Classifier.

(** ** Merging card data with caller supplied data *)

Definition ALLOWED_BILLING_ADDRESS_FIELDS : list string :=
  ["company";
   "countryCodeNumeric";
   "countryCodeAlpha2";
   "countryCodeAlpha3";
   "countryName";
   "extendedAddress";
   "locality";
   "region";
   "firstName";
   "lastName";
   "postalCode";
   "streetAddress"]%string.

(** [Array.prototype.indexOf]: the first position of [x], or -1. *)
Fixpoint indexOf (l : list string) (x : string) : Z :=
  match l with
  | [] => -1
  | y :: rest =>
      if String.eqb y x then 0
      else let i := indexOf rest x in if i =? -1 then -1 else i + 1
  end.

(** Modelled from the spec: [lib/assign], whose source is missing.  It is
    the merge of pipeline step 4, with the meaning of
    [Object.assign]: every source is copied onto the target in turn, a
    later source overwrites an earlier one, and an absent source is
    skipped. *)
Definition assign (target : gmap string value)
    (sources : list (option (gmap string value))) : gmap string value :=
  foldl (fun acc source => default ∅ source ∪ acc) target sources.

(** [Object.keys] of a property map. *)
Definition keys {V : Type} (o : gmap string V) : list string := (map_to_list o).*1.

(** The request that travels with the TOKENIZATION_REQUEST event. *)
Record TokenizationRequest : Type := {
  fieldsToTokenize : option (list string);
  billingAddress : option (gmap string value);
  cardholderName : value;
  vault : value;
  authenticationInsight : value
}.

Definition mergeCardData (cardData : gmap string value)
    (options : TokenizationRequest) : gmap string value :=
  let userProvidedCardData := assign ∅ [billingAddress options] in
  let cardholderName := cardholderName options in
  let userProvidedCardData :=
    foldl (fun remaining field =>
             if (indexOf ALLOWED_BILLING_ADDRESS_FIELDS field =? -1)
                || bool_decide (is_Some (cardData !! field))
             then delete field remaining
             else remaining)
          userProvidedCardData (keys userProvidedCardData) in
  let userProvidedCardData :=
    if truthy cardholderName
    then <["cardholderName"%string := cardholderName]> userProvidedCardData
    else userProvidedCardData in
  assign ∅ [Some cardData; Some userProvidedCardData].

(** ** The tokenization handler *)

(** A settled promise.  A rejection carries an error object: the client
    rejects with the failure it built for the response, and a callback
    that throws rejects with the thrown error. *)
Inductive settled (A : Type) : Type :=
| Fulfilled (a : A)
| Rejected (reason : props).
Arguments Fulfilled {A} a.
Arguments Rejected {A} reason.

Record RequestOptions : Type := {
  api : string;
  method : string;
  endpoint : string;
  data : value
}.

Record CreditCardsConfiguration : Type := {
  supportedCardTypes : list string
}.

Record GatewayConfiguration : Type := {
  creditCards : option CreditCardsConfiguration
}.

(** The remote client: [client.request] answers a request with a promise
    that settles; [client.getConfiguration().gatewayConfiguration]. *)
Record Client : Type := {
  request : RequestOptions -> settled value;
  gatewayConfiguration : GatewayConfiguration
}.

(** The card-data model as the handler uses it. *)
Record CardForm : Type := {
  isEmpty : option (list string) -> bool;
  invalidFieldKeys : option (list string) -> list string;
  getCardData : option (list string) -> gmap string value
}.

(** What the handler does to the outside world, in order. *)
Inductive event : Type :=
| Request (options : RequestOptions)
| Reply (payload : value)
| SendEvent (name : string).

Definition replies (trace : list event) : list value :=
  omap (fun e => match e with Reply payload => Some payload | _ => None end) trace.

Definition requests (trace : list event) : list RequestOptions :=
  omap (fun e => match e with Request o => Some o | _ => None end) trace.

Section Tokenization.
Context `{env : Collaborators}.

(** The callback of [client.request(...).then]: it reads the first
    instrument record, shapes the result, and only then sends the
    analytics event and replies.  A throw therefore happens before either
    effect. *)
Definition onTokenized (clientApiResult : value) : completion (list event) :=
  creditCards ← get clientApiResult "creditCards";
  clientApiCreditCard ← get creditCards "0";
  nonce ← get clientApiCreditCard "nonce";
  details ← get clientApiCreditCard "details";
  description ← get clientApiCreditCard "description";
  type ← get clientApiCreditCard "type";
  binData ← get clientApiCreditCard "binData";
  authenticationInsight ← get clientApiCreditCard "authenticationInsight";
  let result :=
    [("nonce", nonce);
     ("details", details);
     ("description", description);
     ("type", type);
     ("binData", binData)]%string in
  let result :=
    if truthy authenticationInsight
    then assign_prop result "authenticationInsight" authenticationInsight
    else result in
  Normal [SendEvent "custom.hosted-fields.tokenization.succeeded";
          Reply (VArr [VNull; VObj result])].

(** The callback of [.catch]: it runs on a rejection of the request and on
    a throw of [onTokenized].  When the classifier itself throws, nothing
    is sent. *)
Definition onTokenizationFailed (clientApiError : value) : list event :=
  match formatTokenizationError clientApiError with
  | Normal formattedError =>
      [SendEvent "custom.hosted-fields.tokenization.failed";
       Reply (VArr [formattedError])]
  | Throw _ => []
  end.

Definition fieldsEmptyError : value :=
  VObj (new_BraintreeError HOSTED_FIELDS_FIELDS_EMPTY VUndefined).

Definition fieldsInvalidError (invalidFieldKeys : list string) : value :=
  VObj (new_BraintreeError
          {| err_type := err_type HOSTED_FIELDS_FIELDS_INVALID;
             err_code := err_code HOSTED_FIELDS_FIELDS_INVALID;
             err_message := err_message HOSTED_FIELDS_FIELDS_INVALID |}
          (VObj [("invalidFieldKeys", VArr (VStr <$> invalidFieldKeys))]%string)).

(** The request payload of lines 281-299. *)
Definition requestData (cardForm : CardForm) (options : TokenizationRequest)
    (merchantAccountIdForAuthInsight : value) : value :=
  let mergedCardData :=
    mergeCardData (getCardData cardForm (fieldsToTokenize options)) options in
  let creditCardDetails := formatCardRequestData mergedCardData in
  let creditCardDetails :=
    assign_prop creditCardDetails "options"
      (VObj [("validate",
              VBool (match vault options with VBool true => true | _ => false end))]%string) in
  let data :=
    [("_meta", VObj [("source", VStr "hosted-fields")]);
     ("creditCard", VObj creditCardDetails)]%string in
  let data :=
    if truthy merchantAccountIdForAuthInsight
    then assign_prop (assign_prop data "authenticationInsight" (VBool true))
           "merchantAccountId" merchantAccountIdForAuthInsight
    else data in
  VObj data.

(** The handler of one request, run to quiescence.  The callback of
    [Promise.resolve(clientInstanceOrPromise).then] runs only when the
    client promise fulfils; no rejection handler is attached to it. *)
Definition createTokenizationHandler (clientInstanceOrPromise : settled Client)
    (cardForm : CardForm) (options : TokenizationRequest) : list event :=
  match clientInstanceOrPromise with
  | Rejected _ => []
  | Fulfilled client =>
      let fieldsToTokenize := fieldsToTokenize options in
      let isEmpty := isEmpty cardForm fieldsToTokenize in
      let invalidFieldKeys := invalidFieldKeys cardForm fieldsToTokenize in
      let isValid := (length invalidFieldKeys =? 0)%nat in
      let authInsight := authenticationInsight options in
      match (if truthy authInsight
             then get authInsight "merchantAccountId"
             else Normal authInsight) with
      | Throw _ => []
      | Normal merchantAccountIdForAuthInsight =>
          if isEmpty then
            [Reply (VArr [fieldsEmptyError])]
          else if negb isValid then
            [Reply (VArr [fieldsInvalidError invalidFieldKeys])]
          else
            let sent :=
              {| api := "clientApi";
                 method := "post";
                 endpoint := "payment_methods/credit_cards";
                 data := requestData cardForm options merchantAccountIdForAuthInsight |} in
            Request sent ::
              match request client sent with
              | Fulfilled clientApiResult =>
                  match onTokenized clientApiResult with
                  | Normal effects => effects
                  | Throw clientApiError => onTokenizationFailed clientApiError
                  end
              | Rejected clientApiError => onTokenizationFailed (VObj clientApiError)
              end
      end
  end.

End Tokenization.

(** Modelled from the spec: [./models/credit-card-form], whose source is
    missing.  The card-data model maps every field role to
    [{value, isValid, isEmpty, isFocused}]; [isEmpty(fields)] holds when
    every requested field is empty and [invalidFieldKeys(fields)] lists the
    requested fields that currently fail validation.  A request that names
    no fields asks for every role of the model. *)
Record FieldState : Type := {
  fs_value : string;
  fs_isValid : bool;
  fs_isEmpty : bool;
  fs_isFocused : bool
}.

Record CardDataModel : Type := {
  roles : list string;
  state : string -> FieldState;
  cardData : option (list string) -> gmap string value
}.

Definition requested (model : CardDataModel) (fields : option (list string)) : list string :=
  default (roles model) fields.

Definition CreditCardForm (model : CardDataModel) : CardForm :=
  {| isEmpty := fun fields =>
       forallb (fun role => fs_isEmpty (state model role)) (requested model fields);
     invalidFieldKeys := fun fields =>
       List.filter (fun role => negb (fs_isValid (state model role))) (requested model fields);
     getCardData := cardData model |}.

(** ** Supported card brands *)

Section Brands.
Context `{env : Collaborators}.

(** [merchantConfiguredCardBrands] is the merchant's object as its entries
    in [Object.keys] order, or absent. *)
Definition getSupportedCardBrands (client : Client)
    (merchantConfiguredCardBrands : option (list (string * bool))) : gmap string bool :=
  let gwConfiguration := creditCards (gatewayConfiguration client) in
  let gwSupportedCards :=
    (fun configuration => normalizeCardType <$> supportedCardTypes configuration)
      <$> gwConfiguration in
  let gwSupportedCards := default [] gwSupportedCards in
  let merchantConfiguredCardBrands := default [] merchantConfiguredCardBrands in
  let supportedCardBrands :=
    foldl (fun brands cardBrand => <[cardBrand := true]> brands) ∅ gwSupportedCards in
  foldl (fun brands brand => <[normalizeCardType brand.1 := brand.2]> brands)
        supportedCardBrands merchantConfiguredCardBrands.

End Brands.

(** ** The autofill subscriber *)

Record AutofillPayload : Type := {
  month : option string;
  year : option string;
  cvv : option string
}.

(** What the subscriber does to the field component, in order. *)
Inductive effect : Type :=
| UpdateModel (key v : string)
| MaskValue (v : string)
| SetValue (v : string)
| SetAttribute (name v : string).

(** [fieldComponent.input]: the mask flag, the input element with its
    display value and attributes, and the calls it has received. *)
Record FieldComponent : Type := {
  shouldMask : bool;
  element_value : string;
  element_attributes : gmap string string;
  performed : list effect
}.

Definition perform (e : effect) (fc : FieldComponent) : FieldComponent :=
  {| shouldMask := shouldMask fc;
     element_value := element_value fc;
     element_attributes := element_attributes fc;
     performed := performed fc ++ [e] |}.

Definition updateModel (key v : string) (fc : FieldComponent) : FieldComponent :=
  perform (UpdateModel key v) fc.

Definition maskValue (v : string) (fc : FieldComponent) : FieldComponent :=
  perform (MaskValue v) fc.

(** [element.value = v] *)
Definition set_element_value (v : string) (fc : FieldComponent) : FieldComponent :=
  perform (SetValue v)
    {| shouldMask := shouldMask fc;
       element_value := v;
       element_attributes := element_attributes fc;
       performed := performed fc |}.

Definition setAttribute (name v : string) (fc : FieldComponent) : FieldComponent :=
  perform (SetAttribute name v)
    {| shouldMask := shouldMask fc;
       element_value := element_value fc;
       element_attributes := <[name := v]> (element_attributes fc);
       performed := performed fc |}.

(** A string or [undefined], as a condition. *)
Definition filled (s : option string) : bool :=
  match s with
  | Some text => negb (String.eqb text "")
  | None => false
  end.

Definition resetPlaceholder (fc : FieldComponent) : FieldComponent :=
  let placeholder := element_attributes fc !! "placeholder"%string in
  match placeholder with
  | Some text =>
      if filled placeholder
      then setAttribute "placeholder" text (setAttribute "placeholder" "" fc)
      else fc
  | None => fc
  end.

(** Lines 205-213: the body of [if (value)]. *)
Definition applyAutofill (v : string) (fc : FieldComponent) : FieldComponent :=
  let fc := updateModel "value" v fc in
  let fc := if shouldMask fc then maskValue v fc else set_element_value v fc in
  resetPlaceholder fc.

(** Lines 189-192: [thisFullYear] is [(new Date()).getFullYear()]. *)
Definition widenYear (thisFullYear : Z) (year : string) : string :=
  if (String.length year =? 2)%nat
  then substring 0 2 (string_of_Z thisFullYear) +:+ year
  else year.

(** [name] is the surface's role, [frameName.getFrameName()]; an absent
    payload is [None]. *)
Definition autofillHandler (thisFullYear : Z) (name : string)
    (fieldComponent : FieldComponent) (payload : option AutofillPayload) : FieldComponent :=
  match payload with
  | None => fieldComponent
  | Some payload =>
      match month payload, year payload with
      | Some month, Some year =>
          if negb (filled (Some month)) || negb (filled (Some year)) then fieldComponent
          else
            let cvv := cvv payload in
            let year := widenYear thisFullYear year in
            let value :=
              if String.eqb name "expirationDate" then Some (month +:+ " / " +:+ year)
              else if String.eqb name "expirationMonth" then Some month
              else if String.eqb name "expirationYear" then Some year
              else if String.eqb name "cvv" && filled cvv then cvv
              else None in
            match value with
            | Some v => if filled value then applyAutofill v fieldComponent else fieldComponent
            | None => fieldComponent
            end
      | _, _ => fieldComponent
      end
  end%string.

(** ** Reading the merges key by key

    What the two merges are meant to compute, stated per key in the words
    of the specification; the theorems below compare the code with
    these. *)

(** The flag the merchant configured for [brand]: with several keys that
    normalize to the same brand, the last one in key order counts. *)
Definition merchantOverride (normalize : string -> string)
    (merchant : list (string * bool)) (brand : string) : option bool :=
  snd <$> last (List.filter (fun entry => String.eqb (normalize entry.1) brand) merchant).

(** Every gateway-supported brand is accepted, and a merchant-configured
    brand carries the merchant's flag instead. *)
Definition mergedAcceptance (normalize : string -> string)
    (gatewayBrands : list string) (merchant : list (string * bool))
    (brand : string) : option bool :=
  match merchantOverride normalize merchant brand with
  | Some flag => Some flag
  | None =>
      if bool_decide (brand ∈ normalize <$> gatewayBrands) then Some true else None
  end.

(** Card data wins over the billing address, which is admitted only for
    allow-listed keys; a supplied cardholder name is added on top. *)
Definition mergedField (cardData : gmap string value)
    (options : TokenizationRequest) (key : string) : option value :=
  if truthy (cardholderName options) && String.eqb key "cardholderName"
  then Some (cardholderName options)
  else match cardData !! key with
       | Some v => Some v
       | None =>
           if bool_decide (key ∈ ALLOWED_BILLING_ADDRESS_FIELDS)
           then default ∅ (billingAddress options) !! key
           else None
       end.

(** ** Concrete collaborators, used to exercise the theorems *)

Module Sample.

Definition errors (code message : string) : ErrorDescriptor :=
  {| err_type := "CUSTOMER"; err_code := code; err_message := message |}.

(** Unwraps one level of [details.originalError]. *)
Definition rootOf (err : value) : completion value :=
  details ← get err "details";
  if truthy details then
    original ← get details "originalError";
    Normal (if truthy original then original else err)
  else Normal err.

Definition collaborators : Collaborators :=
  {| StringToNumber := fun _ => None;
     HOSTED_FIELDS_FIELDS_EMPTY :=
       errors "HOSTED_FIELDS_FIELDS_EMPTY" "All fields are empty.";
     HOSTED_FIELDS_FIELDS_INVALID :=
       errors "HOSTED_FIELDS_FIELDS_INVALID" "Some payment input fields are invalid.";
     HOSTED_FIELDS_FAILED_TOKENIZATION :=
       errors "HOSTED_FIELDS_FAILED_TOKENIZATION" "The supplied card data failed tokenization.";
     HOSTED_FIELDS_TOKENIZATION_NETWORK_ERROR :=
       {| err_type := "NETWORK";
          err_code := "HOSTED_FIELDS_TOKENIZATION_NETWORK_ERROR";
          err_message := "A tokenization network error occurred." |};
     tokenizationErrorCodes :=
       {[ "81724"%string :=
            errors "HOSTED_FIELDS_TOKENIZATION_FAIL_ON_DUPLICATE" "Duplicate card." ]};
     findRootError := rootOf;
     convertToBraintreeError := fun rootError entry =>
       VObj (new_BraintreeError entry (VObj [("originalError", rootError)]%string));
     formatCardRequestData := fun cardData =>
       [("number", default VUndefined (cardData !! "number"%string))]%string;
     normalizeCardType := fun brand => brand |}.

(** A raw failure with the given HTTP status around a gateway payload. *)
Definition failureProps (status : value) (original : value) : props :=
  [("name", VStr "BraintreeError");
   ("details", VObj [("httpStatus", status); ("originalError", original)])]%string.

Definition failure (status : value) (original : value) : value :=
  VObj (failureProps status original).

(** A gateway payload whose nested field error carries [code]. *)
Definition gatewayError (code : value) : value :=
  VObj [("fieldErrors",
         VArr [VObj [("field", VStr "creditCard");
                     ("fieldErrors", VArr [VObj [("code", code)]])]])]%string.

Definition card : value :=
  VObj [("nonce", VStr "a-nonce");
        ("details", VObj [("lastTwo", VStr "11")]);
        ("description", VStr "ending in 11");
        ("type", VStr "CreditCard");
        ("binData", VObj [])]%string.

Definition acceptingClient : Client :=
  {| request := fun _ => Fulfilled (VObj [("creditCards", VArr [card])]%string);
     gatewayConfiguration :=
       {| creditCards := Some {| supportedCardTypes := ["visa"; "mastercard"]%string |} |} |}.

(** A client whose response lists no instrument record. *)
Definition emptyHandedClient : Client :=
  {| request := fun _ => Fulfilled (VObj [("creditCards", VArr [])]%string);
     gatewayConfiguration := {| creditCards := None |} |}.

Definition decliningClient : Client :=
  {| request := fun _ => Rejected (failureProps (VNum 422) (gatewayError (VStr "81724")));
     gatewayConfiguration := {| creditCards := None |} |}.

Definition model (number cvv : FieldState) : CardDataModel :=
  {| roles := ["number"; "cvv"]%string;
     state := fun role => if String.eqb role "number" then number else cvv;
     cardData := fun _ =>
       {[ "number"%string := VStr (fs_value number); "cvv"%string := VStr (fs_value cvv) ]} |}.

Definition blank : FieldState :=
  {| fs_value := ""; fs_isValid := false; fs_isEmpty := true; fs_isFocused := false |}.

Definition typed (text : string) (valid : bool) : FieldState :=
  {| fs_value := text; fs_isValid := valid; fs_isEmpty := false; fs_isFocused := false |}.

Definition plainRequest : TokenizationRequest :=
  {| fieldsToTokenize := None;
     billingAddress := Some {[ "postalCode"%string := VStr "60654" ]};
     cardholderName := VUndefined;
     vault := VBool false;
     authenticationInsight := VUndefined |}.

Definition field : FieldComponent :=
  {| shouldMask := false;
     element_value := "";
     element_attributes := {[ "placeholder"%string := "YYYY"%string ]};
     performed := [] |}.

End Sample.

(** ** Watching the companion inputs for autofill *)

(** The form as [fix1PasswordAdjustment] sees it: [style.position], and
    the values written to it in order. *)
Record Form : Type := {
  style_position : string;
  position_writes : list string
}.

Definition set_position (p : string) (form : Form) : Form :=
  {| style_position := p; position_writes := position_writes form ++ [p] |}.

Definition fix1PasswordAdjustment (form : Form) : Form :=
  set_position "absolute" (set_position "relative" form).

(** [cachedValues] of [createInputsForAutofill]. *)
Record CachedValues : Type := {
  cachedMonth : string;
  cachedYear : string;
  cachedCvv : string
}.

(** The current [value] of the three companion inputs. *)
Record MockInputs : Type := {
  expMonthInput : string;
  expYearInput : string;
  cvvInput : string
}.

(** What the interval callback works on: the cache, the form, and the
    payloads emitted as AUTOFILL_DATA_AVAILABLE so far. *)
Record AutofillWatch : Type := {
  cachedValues : CachedValues;
  watchedForm : Form;
  emitted : list AutofillPayload
}.

(** The payload of lines 163-167. *)
Definition payloadOf (inputs : MockInputs) : AutofillPayload :=
  {| month := Some (expMonthInput inputs);
     year := Some (expYearInput inputs);
     cvv := Some (cvvInput inputs) |}.

(** [createInputsForAutofill], as far as the watch goes: the cache starts
    out with three empty strings.  (Building the inputs is DOM work.) *)
Definition createInputsForAutofill (form : Form) : AutofillWatch :=
  {| cachedValues := {| cachedMonth := ""; cachedYear := ""; cachedCvv := "" |};
     watchedForm := form;
     emitted := [] |}.

(** One run of the callback given to [setInterval] (lines 152-169). *)
Definition checkForNewAutofillData (inputs : MockInputs) (watch : AutofillWatch)
    : AutofillWatch :=
  let cached := cachedValues watch in
  if negb (String.eqb (cachedMonth cached) (expMonthInput inputs))
     || negb (String.eqb (cachedYear cached) (expYearInput inputs))
     || negb (String.eqb (cachedCvv cached) (cvvInput inputs))
  then
    {| cachedValues :=
         {| cachedMonth := expMonthInput inputs;
            cachedYear := expYearInput inputs;
            cachedCvv := cvvInput inputs |};
       watchedForm := fix1PasswordAdjustment (watchedForm watch);
       emitted := emitted watch ++ [payloadOf inputs] |}
  else watch.

(** The callback run once per interval, on the inputs as they are then. *)
Definition watchInputs (snapshots : list MockInputs) (watch : AutofillWatch)
    : AutofillWatch :=
  foldl (fun w inputs => checkForNewAutofillData inputs w) watch snapshots.

(** ** Restricting card brands once the client is there *)

(** [configuration.fields.number], as [orchestrate] reads it:
    [supportedCardBrands] is the merchant's object in key order, or absent
    (an empty object is present); [rejectUnsupportedCards] as a
    condition. *)
Record NumberConfiguration : Type := {
  supportedCardBrands : option (list (string * bool));
  rejectUnsupportedCards : bool
}.

(** What [orchestrate] does to the card form. *)
Inductive cardFormCall : Type :=
| SetSupportedCardTypes (brands : gmap string bool)
| ValidateField (role : string).

Section Orchestrate.
Context `{env : Collaborators}.

(** The callback of [clientPromise.then] in [orchestrate] (lines 369-383):
    the calls it makes on the card form before handing the client on. *)
Definition restrictCardBrands (numberConfig : option NumberConfiguration)
    (client : Client) : list cardFormCall :=
  match numberConfig with
  | Some number =>
      if bool_decide (is_Some (supportedCardBrands number))
         || rejectUnsupportedCards number
      then
        [SetSupportedCardTypes
           (getSupportedCardBrands client (supportedCardBrands number));
         ValidateField "number"]
      else []
  | None => []
  end.

End Orchestrate.

(** ** Further sample data *)

Module Scenario.

(** The client of [Sample.acceptingClient], answering with [response]. *)
Definition answering (response : value) : Client :=
  {| request := fun _ => Fulfilled response;
     gatewayConfiguration :=
       {| creditCards := Some {| supportedCardTypes := ["Visa"; "MasterCard"]%string |} |} |}.

Definition validForm : CardForm :=
  CreditCardForm (Sample.model (Sample.typed "4111111111111111" true)
                               (Sample.typed "123" true)).

Definition vaultingRequest : TokenizationRequest :=
  {| fieldsToTokenize := Some ["number"; "cvv"]%string;
     billingAddress := None;
     cardholderName := VStr "Ada Lovelace";
     vault := VBool true;
     authenticationInsight := VObj [("merchantAccountId", VStr "merchant-eu")]%string |}.

Definition maskedField : FieldComponent :=
  {| shouldMask := true;
     element_value := "old";
     element_attributes := {[ "placeholder"%string := "CVV"%string ]};
     performed := [UpdateModel "value" "old"]%string |}.

Definition bareForm : Form := {| style_position := "absolute"; position_writes := [] |}.

Definition autofilled (m y c : string) : MockInputs :=
  {| expMonthInput := m; expYearInput := y; cvvInput := c |}.

End Scenario.

(** ** The handler with callbacks that may throw

    The handler above runs with a reply callback that returns and a client
    that rejects with error objects.  Here nothing is assumed about
    either: [reply] may throw, and a promise may reject with any value,
    [undefined] and [null] included.  [.catch] is chained after [.then],
    so whatever the callback of [.then] throws, a throw of
    [reply([null, result])] included, reaches the callback of [.catch]. *)

Module Untyped.

Inductive promise (A : Type) : Type :=
| Fulfils (a : A)
| Rejects (reason : value).
Arguments Fulfils {A} a.
Arguments Rejects {A} reason.

(** [client.request] alone. *)
Record RemoteClient : Type := {
  request : RequestOptions -> promise value
}.

(** The reply callback: it returns, or throws a value. *)
Abbreviation callback := (value -> completion unit).

Section Handler.
Context `{env : Collaborators}.

(** Lines 307-318: the result shaped from the first instrument record. *)
Definition tokenizedResult (clientApiResult : value) : completion props :=
  creditCards ← get clientApiResult "creditCards";
  clientApiCreditCard ← get creditCards "0";
  nonce ← get clientApiCreditCard "nonce";
  details ← get clientApiCreditCard "details";
  description ← get clientApiCreditCard "description";
  type ← get clientApiCreditCard "type";
  binData ← get clientApiCreditCard "binData";
  authenticationInsight ← get clientApiCreditCard "authenticationInsight";
  let result :=
    [("nonce", nonce);
     ("details", details);
     ("description", description);
     ("type", type);
     ("binData", binData)]%string in
  Normal (if truthy authenticationInsight
          then assign_prop result "authenticationInsight" authenticationInsight
          else result).

(** The callback of [.then] followed by the callback of [.catch], for a
    fulfilled request: the events of both, in order.  A throw of [reply]
    comes after its call was made. *)
Definition onTokenized (reply : callback) (clientApiResult : value) : list event :=
  match tokenizedResult clientApiResult with
  | Throw clientApiError => onTokenizationFailed clientApiError
  | Normal result =>
      SendEvent "custom.hosted-fields.tokenization.succeeded" ::
      Reply (VArr [VNull; VObj result]) ::
      match reply (VArr [VNull; VObj result]) with
      | Normal _ => []
      | Throw clientApiError => onTokenizationFailed clientApiError
      end
  end.

(** The handler of one request, run to quiescence.  A throw of [reply] on
    a short circuit, or in the callback of [.catch], ends the run: no
    handler is attached behind either. *)
Definition createTokenizationHandler (clientInstanceOrPromise : promise RemoteClient)
    (cardForm : CardForm) (options : TokenizationRequest) (reply : callback)
    : list event :=
  match clientInstanceOrPromise with
  | Rejects _ => []
  | Fulfils client =>
      let fieldsToTokenize := fieldsToTokenize options in
      let isEmpty := isEmpty cardForm fieldsToTokenize in
      let invalidFieldKeys := invalidFieldKeys cardForm fieldsToTokenize in
      let isValid := (length invalidFieldKeys =? 0)%nat in
      let authInsight := authenticationInsight options in
      match (if truthy authInsight
             then get authInsight "merchantAccountId"
             else Normal authInsight) with
      | Throw _ => []
      | Normal merchantAccountIdForAuthInsight =>
          if isEmpty then
            [Reply (VArr [fieldsEmptyError])]
          else if negb isValid then
            [Reply (VArr [fieldsInvalidError invalidFieldKeys])]
          else
            let sent :=
              {| api := "clientApi";
                 method := "post";
                 endpoint := "payment_methods/credit_cards";
                 data := requestData cardForm options merchantAccountIdForAuthInsight |} in
            Request sent ::
              match request client sent with
              | Fulfils clientApiResult => onTokenized reply clientApiResult
              | Rejects clientApiError => onTokenizationFailed clientApiError
              end
      end
  end.

End Handler.

(** A client of the first kind, seen as one of this kind. *)
Definition ofClient (client : Client) : RemoteClient :=
  {| request := fun sent =>
       match (let 'Build_Client settle _ := client in settle sent) with
       | Fulfilled clientApiResult => Fulfils clientApiResult
       | Rejected clientApiError => Rejects (VObj clientApiError)
       end |}.

(** Sample callbacks and clients. *)
Definition returning : callback := fun _ => Normal tt.

Definition throwing (exn : value) : callback := fun _ => Throw exn.

Definition rejecting (reason : value) : RemoteClient :=
  {| request := fun _ => Rejects reason |}.

Definition answering (response : value) : RemoteClient :=
  {| request := fun _ => Fulfils response |}.

End Untyped.

(** * Properties *)

(** ** Property access *)

Lemma get_nullish (v : value) (key : string) :
  v = VUndefined \/ v = VNull -> exists exn, get v key = Throw exn.
Proof. intros [-> | ->]; simpl; eauto. Qed.

Lemma get_defined (v : value) (key : string) :
  v <> VUndefined -> v <> VNull -> exists w, get v key = Normal w.
Proof.
  intros Hu Hn. destruct v; simpl; try congruence; eauto.
  - destruct (String.eqb key "length"); [eauto|].
    destruct (array_index key); eauto.
  - destruct (String.eqb key "length"); [eauto|].
    destruct (array_index key); eauto.
Qed.

Lemma truthy_defined (v : value) : truthy v = true -> v <> VUndefined /\ v <> VNull.
Proof. destruct v; simpl; intros; split; congruence. Qed.

Lemma get_truthy (v : value) (key : string) :
  truthy v = true -> exists w, get v key = Normal w.
Proof. intros Ht. destruct (truthy_defined v Ht). by apply get_defined. Qed.

Lemma get_throws_TypeError (v : value) (key : string) (exn : value) :
  get v key = Throw exn ->
  exn = TypeError "Cannot read properties of undefined or null".
Proof.
  destruct v; simpl; try congruence.
  - destruct (String.eqb key "length"); [congruence|].
    destruct (array_index key); congruence.
  - destruct (String.eqb key "length"); [congruence|].
    destruct (array_index key); congruence.
Qed.

Lemma own_assign_prop_eq (o : props) (key : string) (v : value) :
  own (assign_prop o key v) key = Some v.
Proof.
  induction o as [|[k w] rest IH]; simpl.
  - by rewrite String.eqb_refl.
  - destruct (String.eqb k key) eqn:E; simpl; rewrite E; [done | apply IH].
Qed.

(** ** The classifier *)

Section ClassifierFacts.
Context `{env : Collaborators}.

Lemma status_of_defined (err : value) :
  err <> VUndefined -> err <> VNull -> exists status, status_of err = Normal status.
Proof.
  intros Hu Hn. unfold status_of.
  destruct (get_defined err "details" Hu Hn) as [details ->]. simpl.
  destruct (truthy details) eqn:Ht; [|eauto].
  apply get_truthy, Ht.
Qed.

(** A failure without [details], or whose [details] carry no
    [httpStatus], has no status. *)
Lemma status_of_missing (o : props) :
  own o "details" = None \/
  (exists d, own o "details" = Some (VObj d) /\ own d "httpStatus" = None) ->
  status_of (VObj o) = Normal VUndefined.
Proof.
  unfold status_of. simpl. intros [-> | (d & -> & Hd)]; simpl; [done|].
  by rewrite Hd.
Qed.

Lemma original_error_detail (d : ErrorDescriptor) (err : value) :
  (details ← get (with_original_error d err) "details"; get details "originalError")
  = Normal err.
Proof. reflexivity. Qed.

(** The classifier returns normally on every value that has properties:
    whatever happens inside the [try] block stays there. *)
Lemma formatTokenizationError_returns (err : value) :
  err <> VUndefined -> err <> VNull ->
  exists formattedError, formatTokenizationError err = Normal formattedError.
Proof.
  intros Hu Hn. unfold formatTokenizationError.
  destruct (status_of_defined err Hu Hn) as [status ->]. simpl.
  destruct (strict_equals_num status 403); [eauto|].
  destruct (less_than_num StringToNumber status 500); [|eauto].
  destruct (extract err) as [rootError code].
  destruct (tokenizationErrorCodes !! ToString code); eauto.
Qed.

(** The value of [code] after the [try] block is [undefined] whenever the
    block was abandoned. *)
Lemma extract_abandoned (err : value) :
  (exists exn, findRootError err = Throw exn) \/
  (exists rootError exn,
     findRootError err = Normal rootError /\ nested_code rootError = Throw exn) ->
  (extract err).2 = VUndefined.
Proof.
  unfold extract. intros [[exn ->] | (rootError & exn & -> & ->)]; reflexivity.
Qed.

Lemma formatTokenizationError_client_error (err : value) (n : Z) :
  status_of err = Normal (VNum n) -> n < 500 -> n <> 403 ->
  tokenizationErrorCodes !! ToString (extract err).2 = None ->
  formatTokenizationError err
  = Normal (with_original_error HOSTED_FIELDS_FAILED_TOKENIZATION err).
Proof.
  intros Hs Hlt Hne Hcode. unfold formatTokenizationError. rewrite Hs. simpl.
  destruct (n =? 403) eqn:E; [lia|].
  unfold less_than_num. simpl.
  destruct (n <? 500) eqn:E'; [|lia].
  destruct (extract err) as [rootError code]. simpl in Hcode. by rewrite Hcode.
Qed.

End ClassifierFacts.

(** C4. A raw failure whose HTTP status is 403 is returned as it is, and
    classifying the returned value again returns it once more. *)
Theorem formatTokenizationError_403 `{env : Collaborators} (err : value) :
  status_of err = Normal (VNum 403) ->
  formatTokenizationError err = Normal err /\
  (formatTokenizationError err ≫= formatTokenizationError) = Normal err.
Proof.
  intros Hs.
  assert (formatTokenizationError err = Normal err) as Hpass.
  { unfold formatTokenizationError. by rewrite Hs. }
  split; [done|]. rewrite Hpass. simpl. exact Hpass.
Qed.

Lemma formatTokenizationError_403_witness :
  let classify := formatTokenizationError (env := Sample.collaborators) in
  let err := Sample.failure (VNum 403) (VStr "forbidden") in
  classify err = Normal err /\ (classify err ≫= classify) = Normal err.
Proof. apply (formatTokenizationError_403 (env := Sample.collaborators)). reflexivity. Defined.

(** C5. A raw failure whose HTTP status is 500 or more, or that has no
    status, is classified as a network error that carries the original
    failure as its [originalError] detail. *)
Theorem formatTokenizationError_network_error `{env : Collaborators} (err status : value) :
  status_of err = Normal status ->
  status = VUndefined \/ (exists n, status = VNum n /\ 500 <= n) ->
  formatTokenizationError err
  = Normal (with_original_error HOSTED_FIELDS_TOKENIZATION_NETWORK_ERROR err) /\
  (details ← get (with_original_error HOSTED_FIELDS_TOKENIZATION_NETWORK_ERROR err) "details";
   get details "originalError") = Normal err.
Proof.
  intros Hs Hstatus. split; [|apply original_error_detail].
  unfold formatTokenizationError. rewrite Hs. simpl.
  destruct Hstatus as [-> | (n & -> & Hn)]; simpl; [done|].
  destruct (n =? 403) eqn:E; [lia|].
  unfold less_than_num. simpl.
  destruct (n <? 500) eqn:E'; [lia | done].
Qed.

Lemma formatTokenizationError_network_error_witness :
  let classify := formatTokenizationError (env := Sample.collaborators) in
  let network := with_original_error
                   (HOSTED_FIELDS_TOKENIZATION_NETWORK_ERROR (Collaborators := Sample.collaborators)) in
  classify (Sample.failure (VNum 503) VUndefined)
  = Normal (network (Sample.failure (VNum 503) VUndefined)) /\
  classify (TypeError "creditCards is undefined")
  = Normal (network (TypeError "creditCards is undefined")).
Proof.
  split.
  - refine (proj1 (formatTokenizationError_network_error
                     (env := Sample.collaborators) _ (VNum 503) _ _)).
    + reflexivity.
    + right. exists 503. split; [reflexivity | lia].
  - refine (proj1 (formatTokenizationError_network_error
                     (env := Sample.collaborators) _ VUndefined _ _)).
    + reflexivity.
    + left. reflexivity.
Defined.

(** C6. A raw failure whose HTTP status is below 500 and is not 403 is
    classified as a failed tokenization that carries the original failure
    as its [originalError] detail, whenever looking for the nested code
    throws, finds no code, or finds a code that the table does not list.
    The classifier returns normally in each case.  The table lists gateway
    codes, so it has no entry under the key that an absent code is looked
    up with. *)
Theorem formatTokenizationError_failed_tokenization `{env : Collaborators}
    (err : value) (n : Z) :
  status_of err = Normal (VNum n) -> n < 500 -> n <> 403 ->
  tokenizationErrorCodes !! "undefined"%string = None ->
  (exists exn, findRootError err = Throw exn) \/
  (exists rootError exn,
     findRootError err = Normal rootError /\ nested_code rootError = Throw exn) \/
  (exists rootError,
     findRootError err = Normal rootError /\ nested_code rootError = Normal VUndefined) \/
  (exists rootError code,
     findRootError err = Normal rootError /\ nested_code rootError = Normal code /\
     tokenizationErrorCodes !! ToString code = None) ->
  formatTokenizationError err
  = Normal (with_original_error HOSTED_FIELDS_FAILED_TOKENIZATION err) /\
  (details ← get (with_original_error HOSTED_FIELDS_FAILED_TOKENIZATION err) "details";
   get details "originalError") = Normal err.
Proof.
  intros Hs Hlt Hne Htable Hcode. split; [|apply original_error_detail].
  apply (formatTokenizationError_client_error err n Hs Hlt Hne).
  destruct Hcode as [Hthrow | [Hthrow | [Habsent | Hunknown]]].
  - by rewrite extract_abandoned; [|left].
  - by rewrite extract_abandoned; [|right].
  - destruct Habsent as (rootError & Hroot & Hnested).
    unfold extract. by rewrite Hroot, Hnested.
  - destruct Hunknown as (rootError & code & Hroot & Hnested & Hnone).
    unfold extract. by rewrite Hroot, Hnested.
Qed.

Lemma formatTokenizationError_failed_tokenization_witness :
  let classify := formatTokenizationError (env := Sample.collaborators) in
  let failed := with_original_error
                  (HOSTED_FIELDS_FAILED_TOKENIZATION (Collaborators := Sample.collaborators)) in
  let unknown := Sample.failure (VNum 404) (Sample.gatewayError (VStr "99999")) in
  let shapeless := Sample.failure (VNum 422) (VObj []) in
  classify unknown = Normal (failed unknown) /\
  classify shapeless = Normal (failed shapeless).
Proof.
  split.
  - refine (proj1 (formatTokenizationError_failed_tokenization
                     (env := Sample.collaborators) _ 404 _ _ _ _ _)).
    + reflexivity.
    + lia.
    + lia.
    + reflexivity.
    + right. right. right.
      exists (Sample.gatewayError (VStr "99999")), (VStr "99999").
      split; [reflexivity | split; reflexivity].
  - refine (proj1 (formatTokenizationError_failed_tokenization
                     (env := Sample.collaborators) _ 422 _ _ _ _ _)).
    + reflexivity.
    + lia.
    + lia.
    + reflexivity.
    + right. left.
      exists (VObj []), (TypeError "Cannot read properties of undefined or null").
      split; reflexivity.
Defined.

(** ** The tokenization handler *)

Section HandlerFacts.
Context `{env : Collaborators}.

(** [authInsight && authInsight.merchantAccountId] never throws: the
    property is read from a truthy value only. *)
Lemma guarded_get (v : value) (key : string) :
  exists w, (if truthy v then get v key else Normal v) = Normal w.
Proof. destruct (truthy v) eqn:Ht; [by apply get_truthy | eauto]. Qed.

Lemma bind_throws {A B : Type} (c : completion A) (k : A -> completion B) (exn : value) :
  (c ≫= k) = Throw exn ->
  c = Throw exn \/ exists a, c = Normal a /\ k a = Throw exn.
Proof.
  destruct c; intros Hk; [right; eauto | left].
  change (Throw (A := B) exn0 = Throw exn) in Hk. congruence.
Qed.

(** Whatever [onTokenized] throws was thrown by a property read. *)
Lemma onTokenized_throws (clientApiResult exn : value) :
  onTokenized clientApiResult = Throw exn ->
  exn = TypeError "Cannot read properties of undefined or null".
Proof.
  unfold onTokenized. intros Hthrow.
  repeat (apply bind_throws in Hthrow;
          destruct Hthrow as [Hthrow | (? & _ & Hthrow)];
          [by eapply get_throws_TypeError|]).
  discriminate.
Qed.

(** When [onTokenized] returns, it has sent the success event and replied
    with [[null, result]]. *)
Lemma onTokenized_returns (clientApiResult : value) (effects : list event) :
  onTokenized clientApiResult = Normal effects ->
  exists result,
    effects = [SendEvent "custom.hosted-fields.tokenization.succeeded";
               Reply (VArr [VNull; VObj result])].
Proof.
  unfold onTokenized. intros Hret.
  repeat (match type of Hret with
          | (?c ≫= _) = Normal _ => destruct c; simpl in Hret; [|discriminate]
          end).
  injection Hret as <-. eauto.
Qed.

Lemma onTokenizationFailed_replies (clientApiError : value) :
  clientApiError <> VUndefined -> clientApiError <> VNull ->
  exists formattedError,
    formatTokenizationError clientApiError = Normal formattedError /\
    onTokenizationFailed clientApiError
    = [SendEvent "custom.hosted-fields.tokenization.failed";
       Reply (VArr [formattedError])].
Proof.
  intros Hu Hn. unfold onTokenizationFailed.
  destruct (formatTokenizationError_returns clientApiError Hu Hn) as [fe ->]. eauto.
Qed.

(** The two short circuits, for any card form. *)
Lemma handler_short_circuit_empty (client : Client) (cardForm : CardForm)
    (options : TokenizationRequest) :
  isEmpty cardForm (fieldsToTokenize options) = true ->
  createTokenizationHandler (Fulfilled client) cardForm options
  = [Reply (VArr [fieldsEmptyError])].
Proof.
  intros Hempty. unfold createTokenizationHandler.
  destruct (guarded_get (authenticationInsight options) "merchantAccountId") as [w ->].
  by rewrite Hempty.
Qed.

Lemma handler_short_circuit_invalid (client : Client) (cardForm : CardForm)
    (options : TokenizationRequest) :
  isEmpty cardForm (fieldsToTokenize options) = false ->
  invalidFieldKeys cardForm (fieldsToTokenize options) <> [] ->
  createTokenizationHandler (Fulfilled client) cardForm options
  = [Reply (VArr [fieldsInvalidError
                    (invalidFieldKeys cardForm (fieldsToTokenize options))])].
Proof.
  intros Hempty Hinvalid. unfold createTokenizationHandler.
  destruct (guarded_get (authenticationInsight options) "merchantAccountId") as [w ->].
  rewrite Hempty.
  destruct (invalidFieldKeys cardForm (fieldsToTokenize options)); [done|].
  reflexivity.
Qed.

(** Without a fulfilled client the callback never runs. *)
Lemma handler_without_client (reason : props) (cardForm : CardForm)
    (options : TokenizationRequest) :
  createTokenizationHandler (Rejected reason) cardForm options = [].
Proof. reflexivity. Qed.

End HandlerFacts.

(** C1. When every requested field is empty, which is what the card form's
    [isEmpty] reports for the requested fields, the handler replies once,
    with the fields-empty error, and sends no request. *)
Theorem createTokenizationHandler_fields_empty `{env : Collaborators}
    (client : Client) (cardForm : CardForm) (options : TokenizationRequest) :
  isEmpty cardForm (fieldsToTokenize options) = true ->
  let trace := createTokenizationHandler (Fulfilled client) cardForm options in
  trace = [Reply (VArr [fieldsEmptyError])] /\
  replies trace = [VArr [fieldsEmptyError]] /\
  requests trace = [].
Proof.
  intros Hempty trace. subst trace.
  rewrite (handler_short_circuit_empty client cardForm options Hempty).
  by repeat split.
Qed.

Lemma createTokenizationHandler_fields_empty_witness :
  let trace :=
    createTokenizationHandler (env := Sample.collaborators)
      (Fulfilled Sample.acceptingClient)
      (CreditCardForm (Sample.model Sample.blank Sample.blank))
      Sample.plainRequest in
  trace = [Reply (VArr [fieldsEmptyError (env := Sample.collaborators)])] /\
  replies trace = [VArr [fieldsEmptyError (env := Sample.collaborators)]] /\
  requests trace = [].
Proof.
  apply (createTokenizationHandler_fields_empty (env := Sample.collaborators)).
  reflexivity.
Defined.

(** C2. When some requested field is invalid and not empty, the handler
    replies once, with the fields-invalid error; the [invalidFieldKeys]
    detail of that error lists exactly the requested fields that fail
    validation; no request is sent. *)
Theorem createTokenizationHandler_fields_invalid `{env : Collaborators}
    (client : Client) (model : CardDataModel) (options : TokenizationRequest)
    (role : string) :
  role ∈ requested model (fieldsToTokenize options) ->
  fs_isValid (state model role) = false ->
  fs_isEmpty (state model role) = false ->
  let trace :=
    createTokenizationHandler (Fulfilled client) (CreditCardForm model) options in
  exists invalid : list string,
    trace = [Reply (VArr [fieldsInvalidError invalid])] /\
    replies trace = [VArr [fieldsInvalidError invalid]] /\
    requests trace = [] /\
    (details ← get (fieldsInvalidError invalid) "details";
     get details "invalidFieldKeys") = Normal (VArr (VStr <$> invalid)) /\
    forall r : string,
      r ∈ invalid <->
      r ∈ requested model (fieldsToTokenize options) /\ fs_isValid (state model r) = false.
Proof.
  intros Hin Hinvalid Hfilled trace. subst trace.
  set (fields := fieldsToTokenize options) in *.
  assert (forall r : string,
            r ∈ invalidFieldKeys (CreditCardForm model) fields <->
            r ∈ requested model fields /\ fs_isValid (state model r) = false) as Hkeys.
  { intros r. simpl. rewrite !list_elem_of_In, filter_In, negb_true_iff. done. }
  exists (invalidFieldKeys (CreditCardForm model) fields).
  rewrite handler_short_circuit_invalid.
  - split; [done|]. split; [done|]. split; [done|]. split; [done|]. exact Hkeys.
  - simpl. apply not_true_iff_false. intros Hall.
    rewrite forallb_forall in Hall.
    apply list_elem_of_In in Hin. specialize (Hall role Hin). congruence.
  - intros Hnil. assert (role ∈ invalidFieldKeys (CreditCardForm model) fields) as Hrole
      by (by apply Hkeys).
    subst fields. rewrite Hnil in Hrole. by apply not_elem_of_nil in Hrole.
Qed.

Lemma createTokenizationHandler_fields_invalid_witness :
  let trace :=
    createTokenizationHandler (env := Sample.collaborators)
      (Fulfilled Sample.acceptingClient)
      (CreditCardForm (Sample.model (Sample.typed "4111" false) Sample.blank))
      Sample.plainRequest in
  exists invalid : list string,
    trace = [Reply (VArr [fieldsInvalidError (env := Sample.collaborators) invalid])] /\
    "number"%string ∈ invalid.
Proof.
  destruct (createTokenizationHandler_fields_invalid (env := Sample.collaborators)
              Sample.acceptingClient
              (Sample.model (Sample.typed "4111" false) Sample.blank)
              Sample.plainRequest "number")
    as (invalid & Htrace & _ & _ & _ & Hkeys).
  - simpl. apply list_elem_of_In. simpl. by left.
  - reflexivity.
  - reflexivity.
  - exists invalid. split; [exact Htrace|].
    apply Hkeys. split; [|reflexivity].
    simpl. apply list_elem_of_In. simpl. by left.
Defined.

(** ** The handler with callbacks that may throw *)

Section UntypedFacts.
Context `{env : Collaborators}.

(** Whatever the shaping of the result throws was thrown by a property
    read. *)
Lemma tokenizedResult_throws (clientApiResult exn : value) :
  Untyped.tokenizedResult clientApiResult = Throw exn ->
  exn = TypeError "Cannot read properties of undefined or null".
Proof.
  unfold Untyped.tokenizedResult. intros Hthrow.
  repeat (apply bind_throws in Hthrow;
          destruct Hthrow as [Hthrow | (? & _ & Hthrow)];
          [by eapply get_throws_TypeError|]).
  discriminate.
Qed.

(** The run of a request that passed both checks. *)
Lemma untyped_submits (client : Untyped.RemoteClient) (cardForm : CardForm)
    (options : TokenizationRequest) (reply : Untyped.callback) :
  isEmpty cardForm (fieldsToTokenize options) = false ->
  invalidFieldKeys cardForm (fieldsToTokenize options) = [] ->
  exists sent,
    Untyped.createTokenizationHandler (Untyped.Fulfils client) cardForm options reply
    = Request sent ::
        match Untyped.request client sent with
        | Untyped.Fulfils clientApiResult => Untyped.onTokenized reply clientApiResult
        | Untyped.Rejects clientApiError => onTokenizationFailed clientApiError
        end.
Proof.
  intros Hempty Hvalid.
  destruct (guarded_get (authenticationInsight options) "merchantAccountId") as [w Hw].
  eexists. unfold Untyped.createTokenizationHandler. rewrite Hw, Hempty, Hvalid.
  reflexivity.
Qed.

Lemma untyped_short_circuit_empty (client : Untyped.RemoteClient) (cardForm : CardForm)
    (options : TokenizationRequest) (reply : Untyped.callback) :
  isEmpty cardForm (fieldsToTokenize options) = true ->
  Untyped.createTokenizationHandler (Untyped.Fulfils client) cardForm options reply
  = [Reply (VArr [fieldsEmptyError])].
Proof.
  intros Hempty. unfold Untyped.createTokenizationHandler.
  destruct (guarded_get (authenticationInsight options) "merchantAccountId") as [w ->].
  by rewrite Hempty.
Qed.

Lemma untyped_short_circuit_invalid (client : Untyped.RemoteClient) (cardForm : CardForm)
    (options : TokenizationRequest) (reply : Untyped.callback) :
  isEmpty cardForm (fieldsToTokenize options) = false ->
  invalidFieldKeys cardForm (fieldsToTokenize options) <> [] ->
  Untyped.createTokenizationHandler (Untyped.Fulfils client) cardForm options reply
  = [Reply (VArr [fieldsInvalidError
                    (invalidFieldKeys cardForm (fieldsToTokenize options))])].
Proof.
  intros Hempty Hinvalid. unfold Untyped.createTokenizationHandler.
  destruct (guarded_get (authenticationInsight options) "merchantAccountId") as [w ->].
  rewrite Hempty.
  destruct (invalidFieldKeys cardForm (fieldsToTokenize options)); [done|].
  reflexivity.
Qed.

(** What the callback of [.catch] leaves behind. *)
Lemma onTokenizationFailed_cases (clientApiError : value) :
  ((clientApiError = VUndefined \/ clientApiError = VNull) /\
   onTokenizationFailed clientApiError = []) \/
  (clientApiError <> VUndefined /\ clientApiError <> VNull /\
   exists formattedError,
     formatTokenizationError clientApiError = Normal formattedError /\
     onTokenizationFailed clientApiError
     = [SendEvent "custom.hosted-fields.tokenization.failed";
        Reply (VArr [formattedError])]).
Proof.
  destruct clientApiError;
    first [ by left; split; [left | reflexivity]
          | by left; split; [right | reflexivity]
          | right; split; [done|]; split; [done|];
            by apply onTokenizationFailed_replies ].
Qed.

(** With a reply callback that returns and a client that rejects with
    error objects, the handler runs as the one of the first kind. *)
Lemma untyped_agrees (client : Client) (cardForm : CardForm)
    (options : TokenizationRequest) :
  Untyped.createTokenizationHandler (Untyped.Fulfils (Untyped.ofClient client))
    cardForm options Untyped.returning
  = createTokenizationHandler (Fulfilled client) cardForm options.
Proof.
  unfold Untyped.createTokenizationHandler, createTokenizationHandler.
  destruct (guarded_get (authenticationInsight options) "merchantAccountId") as [w ->].
  destruct (isEmpty cardForm (fieldsToTokenize options)); [done|].
  destruct (negb _); [done|]. f_equal.
  destruct client as [settle configuration]. cbn [Untyped.ofClient Untyped.request request].
  match goal with |- context [settle ?o] => destruct (settle o) as [r | reason] end;
    [|done].
  unfold Untyped.onTokenized, onTokenized, Untyped.tokenizedResult.
  repeat (match goal with
          | |- context [get ?v ?k ≫= _] => destruct (get v k); cbn [mbind completion_bind]
          end; [|done]).
  reflexivity.
Qed.

End UntypedFacts.

(** C3, as the code has it.  Once the client has resolved, the reply
    callback is called exactly once whenever a failure of the request is
    not [undefined] or [null] and the callback returns from a success
    payload.  The payload is tied to the path taken: the fields-empty
    error or the fields-invalid error on the two short circuits;
    [[null, result]] exactly when the response was fulfilled and its
    result was shaped without a throw; otherwise the one error that
    classifies the rejection, or the exception thrown while shaping the
    result. *)
Theorem createTokenizationHandler_replies_once_guarded `{env : Collaborators}
    (client : Untyped.RemoteClient) (cardForm : CardForm)
    (options : TokenizationRequest) (reply : Untyped.callback) :
  (forall sent reason,
     Untyped.request client sent = Untyped.Rejects reason ->
     reason <> VUndefined /\ reason <> VNull) ->
  (forall result, reply (VArr [VNull; VObj result]) = Normal tt) ->
  let fields := fieldsToTokenize options in
  let trace :=
    Untyped.createTokenizationHandler (Untyped.Fulfils client) cardForm options reply in
  exists payload : value,
    replies trace = [payload] /\
    (isEmpty cardForm fields = true -> payload = VArr [fieldsEmptyError]) /\
    (isEmpty cardForm fields = false -> invalidFieldKeys cardForm fields <> [] ->
     payload = VArr [fieldsInvalidError (invalidFieldKeys cardForm fields)]) /\
    (isEmpty cardForm fields = false -> invalidFieldKeys cardForm fields = [] ->
     exists sent,
       requests trace = [sent] /\
       match Untyped.request client sent with
       | Untyped.Fulfils response =>
           match Untyped.tokenizedResult response with
           | Normal result => payload = VArr [VNull; VObj result]
           | Throw exn =>
               exists formattedError,
                 formatTokenizationError exn = Normal formattedError /\
                 payload = VArr [formattedError]
           end
       | Untyped.Rejects reason =>
           exists formattedError,
             formatTokenizationError reason = Normal formattedError /\
             payload = VArr [formattedError]
       end).
Proof.
  intros Hfailure Hreply fields trace. subst fields trace.
  destruct (isEmpty cardForm (fieldsToTokenize options)) eqn:Hempty.
  { rewrite untyped_short_circuit_empty by done. eexists.
    split; [reflexivity|]. split; [done|]. split; [discriminate | discriminate]. }
  destruct (invalidFieldKeys cardForm (fieldsToTokenize options)) as [|k ks] eqn:Hkeys.
  2:{ rewrite untyped_short_circuit_invalid by (done || congruence). rewrite Hkeys.
      eexists. split; [reflexivity|]. split; [discriminate|]. split; [done | discriminate]. }
  destruct (untyped_submits client cardForm options reply Hempty Hkeys) as [sent ->].
  assert (forall e, e <> VUndefined -> e <> VNull ->
            exists fe, formatTokenizationError e = Normal fe /\
                       onTokenizationFailed e
                       = [SendEvent "custom.hosted-fields.tokenization.failed";
                          Reply (VArr [fe])]) as Hfailed
    by (intros e Hu Hn; by apply onTokenizationFailed_replies).
  destruct (Untyped.request client sent) as [response | reason] eqn:Hsettled.
  - unfold Untyped.onTokenized.
    destruct (Untyped.tokenizedResult response) as [result | exn] eqn:Hshaped.
    + rewrite Hreply. eexists. split; [reflexivity|].
      split; [discriminate|]. split; [done|]. intros _ _.
      exists sent. split; [reflexivity|]. by rewrite Hsettled, Hshaped.
    + pose proof (tokenizedResult_throws _ _ Hshaped) as ->.
      destruct (Hfailed (TypeError "Cannot read properties of undefined or null"))
        as (fe & Hfe & ->); [done | done |].
      eexists. split; [reflexivity|].
      split; [discriminate|]. split; [done|]. intros _ _.
      exists sent. split; [reflexivity|]. rewrite Hsettled, Hshaped. eauto.
  - destruct (Hfailure sent reason Hsettled) as [Hu Hn].
    destruct (Hfailed reason Hu Hn) as (fe & Hfe & ->).
    eexists. split; [reflexivity|].
    split; [discriminate|]. split; [done|]. intros _ _.
    exists sent. split; [reflexivity|]. rewrite Hsettled. eauto.
Qed.

Lemma createTokenizationHandler_replies_once_guarded_witness :
  replies (Untyped.createTokenizationHandler (env := Sample.collaborators)
             (Untyped.Fulfils
                (Untyped.rejecting
                   (Sample.failure (VNum 422) (Sample.gatewayError (VStr "99999")))))
             Scenario.validForm Sample.plainRequest Untyped.returning)
  = [VArr [with_original_error
             (HOSTED_FIELDS_FAILED_TOKENIZATION (Collaborators := Sample.collaborators))
             (Sample.failure (VNum 422) (Sample.gatewayError (VStr "99999")))]].
Proof.
  destruct (createTokenizationHandler_replies_once_guarded (env := Sample.collaborators)
              (Untyped.rejecting
                 (Sample.failure (VNum 422) (Sample.gatewayError (VStr "99999"))))
              Scenario.validForm Sample.plainRequest Untyped.returning)
    as (payload & -> & _ & _ & Hsubmitted).
  - intros sent reason [= <-]. split; discriminate.
  - intros result. reflexivity.
  - destruct Hsubmitted as (sent & _ & fe & Hfe & ->); [reflexivity | reflexivity |].
    vm_compute in Hfe. injection Hfe as <-. reflexivity.
Defined.

(** The claim as it is worded fails both ways.  A reply callback that
    throws on the success payload is called a second time, by the callback
    of [.catch], with the classification of what it threw; and a request
    that rejects with [undefined] makes the classifier throw in the
    callback of [.catch], so that no reply is made at all. *)
Lemma createTokenizationHandler_replies_twice_or_never :
  let run := Untyped.createTokenizationHandler (env := Sample.collaborators) in
  let thrown := VObj [("name", VStr "Error"); ("message", VStr "reply failed")]%string in
  replies (run (Untyped.Fulfils
                  (Untyped.answering (VObj [("creditCards", VArr [Sample.card])]%string)))
               Scenario.validForm Sample.plainRequest (Untyped.throwing thrown))
  = [VArr [VNull; Sample.card];
     VArr [with_original_error
             (HOSTED_FIELDS_TOKENIZATION_NETWORK_ERROR
                (Collaborators := Sample.collaborators)) thrown]] /\
  replies (run (Untyped.Fulfils (Untyped.rejecting VUndefined))
               Scenario.validForm Sample.plainRequest Untyped.returning)
  = [].
Proof. split; vm_compute; reflexivity. Qed.

(** The three ways a request can settle, on concrete clients. *)
Example createTokenizationHandler_settles :
  let form := CreditCardForm (Sample.model (Sample.typed "4111111111111111" true)
                                           (Sample.typed "123" true)) in
  let run := fun client =>
    createTokenizationHandler (env := Sample.collaborators)
      (Fulfilled client) form Sample.plainRequest in
  replies (run Sample.acceptingClient) = [VArr [VNull; Sample.card]] /\
  length (replies (run Sample.decliningClient)) = 1%nat /\
  replies (run Sample.emptyHandedClient)
  = [VArr [with_original_error
             (HOSTED_FIELDS_TOKENIZATION_NETWORK_ERROR (Collaborators := Sample.collaborators))
             (TypeError "Cannot read properties of undefined or null")]].
Proof. vm_compute. auto. Qed.

(** ** The autofill subscriber *)

Lemma filled_append (prefix text : string) :
  filled (Some text) = true -> filled (Some (prefix +:+ text)) = true.
Proof. destruct prefix; [done | reflexivity]. Qed.

Lemma filled_length_2 (text : string) :
  String.length text = 2%nat -> filled (Some text) = true.
Proof. destruct text; [discriminate | reflexivity]. Qed.

(** The value the subscriber settles on is applied as it is. *)
Lemma autofillHandler_date (thisFullYear : Z) (fc : FieldComponent)
    (m y : string) (c : option string) :
  filled (Some m) = true -> filled (Some y) = true ->
  autofillHandler thisFullYear "expirationDate" fc
    (Some {| month := Some m; year := Some y; cvv := c |})
  = applyAutofill (m +:+ " / " +:+ widenYear thisFullYear y) fc.
Proof.
  intros Hm Hy. unfold autofillHandler. cbn [month year cvv].
  rewrite Hm, Hy. cbn [negb orb String.eqb Ascii.eqb Bool.eqb andb].
  by rewrite filled_append.
Qed.

Lemma autofillHandler_year (thisFullYear : Z) (fc : FieldComponent)
    (m y : string) (c : option string) :
  filled (Some m) = true -> filled (Some y) = true ->
  filled (Some (widenYear thisFullYear y)) = true ->
  autofillHandler thisFullYear "expirationYear" fc
    (Some {| month := Some m; year := Some y; cvv := c |})
  = applyAutofill (widenYear thisFullYear y) fc.
Proof.
  intros Hm Hy Hwide. unfold autofillHandler. cbn [month year cvv].
  rewrite Hm, Hy. cbn [negb orb String.eqb Ascii.eqb Bool.eqb andb].
  by rewrite Hwide.
Qed.

(** C7. A year of exactly two characters is widened by putting the first
    two characters of the current full year in front of it; this is the
    value the expiration-year surface applies, and the year part of what
    the expiration-date surface applies.  In a century that begins with
    20, the year 29 becomes 2029. *)
Theorem autofillHandler_two_digit_year (thisFullYear : Z) (fc : FieldComponent)
    (m y : string) (c : option string) :
  filled (Some m) = true ->
  String.length y = 2%nat ->
  let century := substring 0 2 (string_of_Z thisFullYear) in
  let payload := Some {| month := Some m; year := Some y; cvv := c |} in
  widenYear thisFullYear y = century +:+ y /\
  autofillHandler thisFullYear "expirationYear" fc payload
  = applyAutofill (century +:+ y) fc /\
  autofillHandler thisFullYear "expirationDate" fc payload
  = applyAutofill (m +:+ " / " +:+ century +:+ y) fc /\
  (century = "20"%string -> y = "29"%string ->
   autofillHandler thisFullYear "expirationYear" fc payload = applyAutofill "2029" fc).
Proof.
  intros Hm Hlen century payload.
  assert (widenYear thisFullYear y = century +:+ y) as Hwide.
  { unfold widenYear. by rewrite Hlen. }
  pose proof (filled_length_2 y Hlen) as Hy.
  assert (autofillHandler thisFullYear "expirationYear" fc payload
          = applyAutofill (century +:+ y) fc) as Hyear.
  { subst payload. rewrite autofillHandler_year; try done.
    - by rewrite Hwide.
    - rewrite Hwide. by apply filled_append. }
  split; [exact Hwide|]. split; [exact Hyear|]. split.
  - subst payload. rewrite autofillHandler_date by done. by rewrite Hwide.
  - intros Hcentury ->. rewrite Hyear, Hcentury. reflexivity.
Qed.

Lemma autofillHandler_two_digit_year_witness :
  widenYear 2026 "29" = "2029"%string /\
  autofillHandler 2026 "expirationYear" Sample.field
    (Some {| month := Some "12"; year := Some "29"; cvv := None |}%string)
  = applyAutofill "2029" Sample.field.
Proof.
  destruct (autofillHandler_two_digit_year 2026 Sample.field "12" "29" None)
    as (Hwide & Hyear & _ & _).
  - reflexivity.
  - reflexivity.
  - split; [exact Hwide | exact Hyear].
Defined.

(** C10. The subscriber leaves the field component as it was, with no
    call made on it, when the payload is absent or lacks a month or a
    year, and also when the surface's role is none of expirationDate,
    expirationMonth, expirationYear and cvv, or is cvv while the payload
    carries no cvv. *)
Theorem autofillHandler_frame (thisFullYear : Z) (name : string)
    (fc : FieldComponent) (payload : option AutofillPayload) :
  payload = None \/
  filled (payload ≫= month) = false \/
  filled (payload ≫= year) = false \/
  name ∉ ["expirationDate"; "expirationMonth"; "expirationYear"; "cvv"]%string \/
  (name = "cvv"%string /\ filled (payload ≫= cvv) = false) ->
  autofillHandler thisFullYear name fc payload = fc.
Proof.
  intros Hcase. unfold autofillHandler.
  destruct payload as [[mo ye cv]|]; [|done]. cbn [month year cvv].
  destruct mo as [mo|]; [|done]. destruct ye as [ye|]; [|done].
  destruct Hcase as [Hnone | [Hmonth | [Hyear | [Hrole | [-> Hcvv]]]]].
  - discriminate.
  - change (filled (Some mo) = false) in Hmonth. by rewrite Hmonth.
  - change (filled (Some ye) = false) in Hyear. rewrite Hyear. by rewrite orb_true_r.
  - destruct (negb (filled (Some mo)) || negb (filled (Some ye))); [done|].
    destruct (String.eqb_spec name "expirationDate") as [-> | _].
    { exfalso. apply Hrole. set_solver. }
    destruct (String.eqb_spec name "expirationMonth") as [-> | _].
    { exfalso. apply Hrole. set_solver. }
    destruct (String.eqb_spec name "expirationYear") as [-> | _].
    { exfalso. apply Hrole. set_solver. }
    destruct (String.eqb_spec name "cvv") as [-> | _].
    { exfalso. apply Hrole. set_solver. }
    done.
  - destruct (negb (filled (Some mo)) || negb (filled (Some ye))); [done|].
    change (filled cv = false) in Hcvv.
    cbn [String.eqb Ascii.eqb Bool.eqb andb]. by rewrite Hcvv.
Qed.

Lemma autofillHandler_frame_witness :
  autofillHandler 2026 "number" Sample.field
    (Some {| month := Some "12"; year := Some "29"; cvv := Some "123" |}%string)
  = Sample.field /\
  autofillHandler 2026 "cvv" Sample.field
    (Some {| month := Some "12"; year := Some "29"; cvv := None |}%string)
  = Sample.field /\
  autofillHandler 2026 "expirationYear" Sample.field
    (Some {| month := Some "12"; year := None; cvv := None |}%string)
  = Sample.field.
Proof.
  split; [|split].
  - apply autofillHandler_frame. right. right. right. left.
    intros Hin. repeat (apply elem_of_cons in Hin as [Hin | Hin]; [discriminate|]).
    by apply not_elem_of_nil in Hin.
  - apply autofillHandler_frame. right. right. right. right. split; reflexivity.
  - apply autofillHandler_frame. right. right. left. reflexivity.
Defined.

(** ** Supported card brands *)

Section BrandFacts.
Context `{env : Collaborators}.

Lemma lookup_accept_all (brands : list string) (start : gmap string bool) (brand : string) :
  foldl (fun acc cardBrand => <[cardBrand := true]> acc) start brands !! brand
  = if bool_decide (brand ∈ brands) then Some true else start !! brand.
Proof.
  induction brands as [|b brands IH] using rev_ind.
  - case_bool_decide as Hin; [by apply not_elem_of_nil in Hin | done].
  - rewrite foldl_snoc. destruct (decide (b = brand)) as [-> | Hne].
    + rewrite lookup_insert_eq. rewrite bool_decide_eq_true_2; [done|].
      apply elem_of_app. right. by apply list_elem_of_singleton.
    + rewrite lookup_insert_ne by done. rewrite IH.
      apply (f_equal (fun d : bool => if d then Some true else start !! brand)).
      apply bool_decide_ext. rewrite elem_of_app, list_elem_of_singleton.
      split; [by left | intros [Hin | ->]; [done | congruence]].
Qed.

Lemma lookup_override (normalize : string -> string) (merchant : list (string * bool))
    (start : gmap string bool) (brand : string) :
  foldl (fun acc entry => <[normalize entry.1 := entry.2]> acc) start merchant !! brand
  = match merchantOverride normalize merchant brand with
    | Some flag => Some flag
    | None => start !! brand
    end.
Proof.
  unfold merchantOverride.
  induction merchant as [|[b flag] merchant IH] using rev_ind; [done|].
  rewrite foldl_snoc, List.filter_app, last_app. simpl.
  destruct (String.eqb_spec (normalize b) brand) as [-> | Hne].
  - simpl. by rewrite lookup_insert_eq.
  - simpl. rewrite lookup_insert_ne by done. exact IH.
Qed.

End BrandFacts.

(** C8. The merged acceptance set accepts every brand the gateway
    supports and carries, for every brand the merchant configured, the
    merchant's flag instead; no other brand is in it.  With the gateway
    brands visa and mastercard and the merchant configuration
    [{visa: true}], both visa and mastercard are accepted. *)
Theorem getSupportedCardBrands_merge `{env : Collaborators} (client : Client)
    (merchantConfiguredCardBrands : option (list (string * bool))) :
  (forall brand : string,
     getSupportedCardBrands client merchantConfiguredCardBrands !! brand
     = mergedAcceptance normalizeCardType
         (default [] (supportedCardTypes <$> creditCards (gatewayConfiguration client)))
         (default [] merchantConfiguredCardBrands) brand) /\
  (creditCards (gatewayConfiguration client)
   = Some {| supportedCardTypes := ["visa"; "mastercard"]%string |} ->
   merchantConfiguredCardBrands = Some [("visa"%string, true)] ->
   getSupportedCardBrands client merchantConfiguredCardBrands
   = {[ normalizeCardType "visa" := true; normalizeCardType "mastercard" := true ]}).
Proof.
  assert (forall brand : string,
     getSupportedCardBrands client merchantConfiguredCardBrands !! brand
     = mergedAcceptance normalizeCardType
         (default [] (supportedCardTypes <$> creditCards (gatewayConfiguration client)))
         (default [] merchantConfiguredCardBrands) brand) as Hlookup.
  { intros brand. unfold getSupportedCardBrands, mergedAcceptance.
    rewrite lookup_override, lookup_accept_all, lookup_empty.
    by destruct (creditCards (gatewayConfiguration client)). }
  split; [exact Hlookup|].
  intros Hgateway Hmerchant. apply map_eq. intros brand.
  rewrite Hlookup, Hgateway, Hmerchant.
  unfold mergedAcceptance, merchantOverride. simpl.
  destruct (String.eqb_spec (normalizeCardType "visa") brand) as [<- | Hvisa]; simpl.
  - by simplify_map_eq.
  - destruct (decide (normalizeCardType "mastercard" = brand)) as [<- | Hmaster].
    + simplify_map_eq. rewrite bool_decide_eq_true_2; [done|].
      apply elem_of_cons. right. by apply list_elem_of_singleton.
    + simplify_map_eq. rewrite bool_decide_eq_false_2; [done|].
      rewrite elem_of_cons, list_elem_of_singleton. by intros [? | ?].
Qed.

Lemma getSupportedCardBrands_merge_witness :
  getSupportedCardBrands (env := Sample.collaborators) Sample.acceptingClient
    (Some [("visa"%string, true)])
  = {[ "visa"%string := true; "mastercard"%string := true ]}.
Proof.
  apply (proj2 (getSupportedCardBrands_merge (env := Sample.collaborators)
                  Sample.acceptingClient (Some [("visa"%string, true)])));
    reflexivity.
Defined.

(** ** Merging card data *)

Lemma indexOf_absent (l : list string) (x : string) :
  (indexOf l x =? -1) = negb (bool_decide (x ∈ l)) /\ -1 <= indexOf l x.
Proof.
  induction l as [|y l IH]; cbn [indexOf]; [|destruct IH as [IH Hge]].
  - split; [|lia]. case_bool_decide as Hin; [by apply not_elem_of_nil in Hin | done].
  - destruct (String.eqb_spec y x) as [-> | Hne].
    + split; [|lia]. rewrite bool_decide_eq_true_2; [done | apply elem_of_cons; by left].
    + assert (bool_decide (x ∈ y :: l) = bool_decide (x ∈ l)) as ->.
      { apply bool_decide_ext. rewrite elem_of_cons.
        split; [intros [-> | Hin]; [congruence | done] | by right]. }
      destruct (indexOf l x =? -1) eqn:E.
      * split; [|lia]. by rewrite <- IH.
      * split; [|lia]. rewrite <- IH. lia.
Qed.

(** Deleting the keys that satisfy [drop], visiting the keys [visited]. *)
Lemma lookup_prune {V : Type} (drop : string -> bool) (visited : list string)
    (o : gmap string V) (key : string) :
  foldl (fun remaining field => if drop field then delete field remaining else remaining)
        o visited !! key
  = if drop key && bool_decide (key ∈ visited) then None else o !! key.
Proof.
  induction visited as [|k visited IH] using rev_ind.
  - case_bool_decide as Hin; [by apply not_elem_of_nil in Hin|].
    by rewrite andb_false_r.
  - rewrite foldl_snoc. destruct (decide (k = key)) as [-> | Hne].
    + rewrite (bool_decide_eq_true_2 (key ∈ visited ++ [key])).
      2:{ apply elem_of_app. right. by apply list_elem_of_singleton. }
      rewrite andb_true_r. destruct (drop key) eqn:Hdrop.
      * by rewrite lookup_delete_eq.
      * rewrite IH. by rewrite ?Hdrop.
    + assert (bool_decide (key ∈ visited ++ [k]) = bool_decide (key ∈ visited)) as ->.
      { apply bool_decide_ext. rewrite elem_of_app, list_elem_of_singleton.
        split; [intros [Hin | ->]; [done | congruence] | by left]. }
      destruct (drop k); [rewrite lookup_delete_ne by done|]; exact IH.
Qed.

Lemma elem_of_keys {V : Type} (o : gmap string V) (key : string) :
  key ∈ keys o <-> is_Some (o !! key).
Proof.
  unfold keys. rewrite list_elem_of_fmap. split.
  - intros ([k v] & -> & Hin). apply elem_of_map_to_list in Hin. eauto.
  - intros [v Hv]. exists (key, v). split; [done|]. by apply elem_of_map_to_list.
Qed.

(** What is left of the caller's billing address once the loop of
    [mergeCardData] has run. *)
Lemma lookup_admitted (cardData billing : gmap string value) (key : string) :
  foldl (fun remaining field =>
           if (indexOf ALLOWED_BILLING_ADDRESS_FIELDS field =? -1)
              || bool_decide (is_Some (cardData !! field))
           then delete field remaining
           else remaining)
        billing (keys billing) !! key
  = if bool_decide (key ∈ ALLOWED_BILLING_ADDRESS_FIELDS)
       && negb (bool_decide (is_Some (cardData !! key)))
    then billing !! key
    else None.
Proof.
  rewrite (lookup_prune
             (fun field => (indexOf ALLOWED_BILLING_ADDRESS_FIELDS field =? -1)
                           || bool_decide (is_Some (cardData !! field)))).
  rewrite (proj1 (indexOf_absent ALLOWED_BILLING_ADDRESS_FIELDS key)).
  destruct (bool_decide (key ∈ ALLOWED_BILLING_ADDRESS_FIELDS));
    destruct (bool_decide (is_Some (cardData !! key))); cbn [negb orb andb]; try done.
  all: case_bool_decide as Hin; [done|];
    apply eq_None_not_Some; by rewrite <- elem_of_keys.
Qed.

(** C9. Key by key, the merged data holds the card data, then the
    caller's billing-address fields whose key is on the allow-list and not
    a key of the card data, then the cardholder name when one is supplied.
    So a value of the card data is kept against the billing address, a key
    off the allow-list never comes from the billing address, and a
    supplied cardholder name is stored under [cardholderName]. *)
Theorem mergeCardData_lookup (cardData : gmap string value)
    (options : TokenizationRequest) :
  (forall key : string,
     mergeCardData cardData options !! key = mergedField cardData options key) /\
  (forall (key : string) (v : value),
     key <> "cardholderName"%string -> cardData !! key = Some v ->
     mergeCardData cardData options !! key = Some v) /\
  (forall key : string,
     key <> "cardholderName"%string -> key ∉ ALLOWED_BILLING_ADDRESS_FIELDS ->
     mergeCardData cardData options !! key = cardData !! key) /\
  (forall key : string,
     key ∈ ALLOWED_BILLING_ADDRESS_FIELDS -> cardData !! key = None ->
     mergeCardData cardData options !! key = default ∅ (billingAddress options) !! key) /\
  (truthy (cardholderName options) = true ->
   mergeCardData cardData options !! "cardholderName"%string
   = Some (cardholderName options)).
Proof.
  assert (forall key : string,
     mergeCardData cardData options !! key = mergedField cardData options key) as Hlookup.
  { intros key. unfold mergeCardData, mergedField, assign. cbn [foldl].
    rewrite !(right_id_L ∅ (∪)). cbn [default]. unfold id.
    rewrite lookup_union.
    destruct (truthy (cardholderName options)) eqn:Hname; cbn [andb].
    - destruct (String.eqb_spec key "cardholderName") as [-> | Hne].
      + rewrite lookup_insert_eq. by destruct (cardData !! "cardholderName"%string).
      + rewrite lookup_insert_ne by congruence. rewrite lookup_admitted.
        destruct (cardData !! key) as [v|] eqn:Hcard.
        * rewrite (bool_decide_eq_true_2 (is_Some (Some v))) by eauto.
          by rewrite andb_false_r.
        * rewrite (bool_decide_eq_false_2 (is_Some None)) by (by intros [? ?]).
          rewrite andb_true_r.
          destruct (bool_decide (key ∈ ALLOWED_BILLING_ADDRESS_FIELDS)); [|done].
          match goal with |- ?o ∪ None = ?o => by destruct o end.
    - rewrite lookup_admitted.
      destruct (cardData !! key) as [v|] eqn:Hcard.
      + rewrite (bool_decide_eq_true_2 (is_Some (Some v))) by eauto.
        by rewrite andb_false_r.
      + rewrite (bool_decide_eq_false_2 (is_Some None)) by (by intros [? ?]).
        rewrite andb_true_r.
        destruct (bool_decide (key ∈ ALLOWED_BILLING_ADDRESS_FIELDS)); [|done].
        match goal with |- ?o ∪ None = ?o => by destruct o end. }
  split; [exact Hlookup|].
  split; [|split; [|split]].
  - intros key v Hne Hcard. rewrite Hlookup. unfold mergedField.
    rewrite (proj2 (String.eqb_neq key "cardholderName") Hne), andb_false_r.
    by rewrite Hcard.
  - intros key Hne Hoff. rewrite Hlookup. unfold mergedField.
    rewrite (proj2 (String.eqb_neq key "cardholderName") Hne), andb_false_r.
    rewrite (bool_decide_eq_false_2 _ Hoff). by destruct (cardData !! key).
  - intros key Hon Hcard. rewrite Hlookup. unfold mergedField.
    assert (String.eqb key "cardholderName" = false) as ->.
    { apply String.eqb_neq. intros ->. revert Hon. unfold ALLOWED_BILLING_ADDRESS_FIELDS.
      rewrite !elem_of_cons, elem_of_nil. intuition discriminate. }
    rewrite andb_false_r, Hcard. by rewrite (bool_decide_eq_true_2 _ Hon).
  - intros Hname. rewrite Hlookup. unfold mergedField. by rewrite Hname.
Qed.

Lemma mergeCardData_lookup_witness :
  let options :=
    {| fieldsToTokenize := None;
       billingAddress :=
         Some {[ "postalCode"%string := VStr "60654";
                 "number"%string := VStr "0000";
                 "favouriteColour"%string := VStr "teal" ]};
       cardholderName := VStr "Ada Lovelace";
       vault := VBool false;
       authenticationInsight := VUndefined |} in
  let cardData : gmap string value := {[ "number"%string := VStr "4111111111111111" ]} in
  let merged := mergeCardData cardData options in
  merged !! "number"%string = Some (VStr "4111111111111111") /\
  merged !! "favouriteColour"%string = None /\
  merged !! "postalCode"%string = Some (VStr "60654") /\
  merged !! "cardholderName"%string = Some (VStr "Ada Lovelace").
Proof.
  intros options cardData merged.
  destruct (mergeCardData_lookup cardData options) as (_ & Hcard & Hoff & Hon & Hname).
  split; [|split; [|split]].
  - apply Hcard; [discriminate | vm_compute; reflexivity].
  - rewrite Hoff; [vm_compute; reflexivity | discriminate | (apply (bool_decide_unpack _); vm_compute; exact I)].
  - rewrite Hon; [vm_compute; reflexivity | (apply (bool_decide_unpack _); vm_compute; exact I) | vm_compute; reflexivity].
  - apply Hname. reflexivity.
Defined.

(** * Further properties of the code *)

(** ** The tokenization handler, continued *)

Lemma own_assign_prop_ne (o : props) (key other : string) (v : value) :
  other <> key -> own (assign_prop o key v) other = own o other.
Proof.
  intros Hne. induction o as [|[k w] rest IH]; simpl.
  - by rewrite (proj2 (String.eqb_neq key other)) by congruence.
  - destruct (String.eqb_spec k key) as [-> | Hk]; simpl.
    + by rewrite (proj2 (String.eqb_neq key other)) by congruence.
    + destruct (String.eqb k other); [done | exact IH].
Qed.

Section HandlerTraces.
Context `{env : Collaborators}.

(** The run of a request that passed both checks. *)
Lemma handler_submits (client : Client) (cardForm : CardForm)
    (options : TokenizationRequest) :
  isEmpty cardForm (fieldsToTokenize options) = false ->
  invalidFieldKeys cardForm (fieldsToTokenize options) = [] ->
  exists merchantAccountId sent,
    (if truthy (authenticationInsight options)
     then get (authenticationInsight options) "merchantAccountId"
     else Normal (authenticationInsight options)) = Normal merchantAccountId /\
    sent = {| api := "clientApi";
              method := "post";
              endpoint := "payment_methods/credit_cards";
              data := requestData cardForm options merchantAccountId |} /\
    createTokenizationHandler (Fulfilled client) cardForm options
    = Request sent ::
        match request client sent with
        | Fulfilled clientApiResult =>
            match onTokenized clientApiResult with
            | Normal effects => effects
            | Throw clientApiError => onTokenizationFailed clientApiError
            end
        | Rejected clientApiError => onTokenizationFailed (VObj clientApiError)
        end.
Proof.
  intros Hempty Hvalid.
  destruct (guarded_get (authenticationInsight options) "merchantAccountId") as [w Hw].
  exists w. eexists. split; [exact Hw|]. split; [reflexivity|].
  unfold createTokenizationHandler. rewrite Hw, Hempty, Hvalid. reflexivity.
Qed.

Lemma onTokenizationFailed_requests (clientApiError : value) :
  requests (onTokenizationFailed clientApiError) = [].
Proof. unfold onTokenizationFailed. by destruct (formatTokenizationError clientApiError). Qed.

(** After the request itself, nothing else is requested. *)
Lemma handler_requests_submitted (client : Client) (cardForm : CardForm)
    (options : TokenizationRequest) :
  isEmpty cardForm (fieldsToTokenize options) = false ->
  invalidFieldKeys cardForm (fieldsToTokenize options) = [] ->
  exists merchantAccountId,
    (if truthy (authenticationInsight options)
     then get (authenticationInsight options) "merchantAccountId"
     else Normal (authenticationInsight options)) = Normal merchantAccountId /\
    requests (createTokenizationHandler (Fulfilled client) cardForm options)
    = [{| api := "clientApi";
          method := "post";
          endpoint := "payment_methods/credit_cards";
          data := requestData cardForm options merchantAccountId |}].
Proof.
  intros Hempty Hvalid.
  destruct (handler_submits client cardForm options Hempty Hvalid)
    as (w & sent & Hw & -> & ->).
  exists w. split; [exact Hw|]. simpl. f_equal.
  match goal with |- context [request client ?o] => destruct (request client o) as [r | reason] end.
  - destruct (onTokenized r) as [effects | exn] eqn:Hprocessed.
    + destruct (onTokenized_returns _ _ Hprocessed) as [result ->]. reflexivity.
    + apply onTokenizationFailed_requests.
  - apply onTokenizationFailed_requests.
Qed.

End HandlerTraces.

(** X1. Once the client is there, a run of the handler is one of five
    sequences: a single reply with an error; a request alone, when the
    request rejects with [undefined] or [null]; a request, the failure
    event and a reply with one error; a request, the success event and
    the reply [[null, result]], when that reply returns (or throws
    [undefined] or [null]); or these three followed by the failure event
    and a second reply, with an error, when the reply [[null, result]]
    throws anything else.  So at most one request is sent, the success
    event never follows the failure event, and a reply is always the last
    effect of a run that replies. *)
Theorem createTokenizationHandler_trace `{env : Collaborators}
    (client : Untyped.RemoteClient) (cardForm : CardForm)
    (options : TokenizationRequest) (reply : Untyped.callback) :
  let trace :=
    Untyped.createTokenizationHandler (Untyped.Fulfils client) cardForm options reply in
  let succeeded := SendEvent "custom.hosted-fields.tokenization.succeeded" in
  let failed := SendEvent "custom.hosted-fields.tokenization.failed" in
  (exists error, trace = [Reply (VArr [error])]) \/
  (exists sent reason,
     Untyped.request client sent = Untyped.Rejects reason /\
     (reason = VUndefined \/ reason = VNull) /\
     trace = [Request sent]) \/
  (exists sent error, trace = [Request sent; failed; Reply (VArr [error])]) \/
  (exists sent result,
     (reply (VArr [VNull; VObj result]) = Normal tt \/
      reply (VArr [VNull; VObj result]) = Throw VUndefined \/
      reply (VArr [VNull; VObj result]) = Throw VNull) /\
     trace = [Request sent; succeeded; Reply (VArr [VNull; VObj result])]) \/
  (exists sent result exn error,
     reply (VArr [VNull; VObj result]) = Throw exn /\
     formatTokenizationError exn = Normal error /\
     trace = [Request sent; succeeded; Reply (VArr [VNull; VObj result]);
              failed; Reply (VArr [error])]).
Proof.
  intros trace succeeded failed. subst trace succeeded failed.
  destruct (isEmpty cardForm (fieldsToTokenize options)) eqn:Hempty.
  { left. rewrite untyped_short_circuit_empty by done. eauto. }
  destruct (invalidFieldKeys cardForm (fieldsToTokenize options)) as [|k ks] eqn:Hkeys.
  2:{ left. rewrite untyped_short_circuit_invalid by (done || congruence). eauto. }
  destruct (untyped_submits client cardForm options reply Hempty Hkeys) as [sent ->].
  right.
  destruct (Untyped.request client sent) as [response | reason] eqn:Hsettled.
  - unfold Untyped.onTokenized.
    destruct (Untyped.tokenizedResult response) as [result | exn] eqn:Hshaped.
    + destruct (reply (VArr [VNull; VObj result])) as [[] | exn] eqn:Hreply.
      * right. right. left. exists sent, result. split; [by left | done].
      * destruct (onTokenizationFailed_cases exn)
          as [[Hnullish ->] | (_ & _ & fe & Hfe & ->)].
        -- right. right. left. exists sent, result. split; [|done].
           right. destruct Hnullish as [-> | ->]; [by left | by right].
        -- right. right. right. exists sent, result, exn, fe. done.
    + pose proof (tokenizedResult_throws _ _ Hshaped) as ->.
      destruct (onTokenizationFailed_cases
                  (TypeError "Cannot read properties of undefined or null"))
        as [[[Hnullish | Hnullish] _] | (_ & _ & fe & _ & ->)]; [done | done |].
      right. left. eauto.
  - destruct (onTokenizationFailed_cases reason)
      as [[Hnullish ->] | (_ & _ & fe & _ & ->)].
    + left. exists sent, reason. done.
    + right. left. eauto.
Qed.

(** X2. A request that is neither empty nor invalid is sent exactly once,
    as a [post] to [payment_methods/credit_cards] of the client API.  Its
    data is tagged with the source [hosted-fields], and
    [creditCard.options.validate] is [true] exactly when [vault] is the
    boolean [true], whatever [options] the formatted card data had. *)
Theorem createTokenizationHandler_request `{env : Collaborators}
    (client : Client) (cardForm : CardForm) (options : TokenizationRequest) :
  isEmpty cardForm (fieldsToTokenize options) = false ->
  invalidFieldKeys cardForm (fieldsToTokenize options) = [] ->
  exists sent,
    requests (createTokenizationHandler (Fulfilled client) cardForm options) = [sent] /\
    api sent = "clientApi"%string /\
    method sent = "post"%string /\
    endpoint sent = "payment_methods/credit_cards"%string /\
    (meta ← get (data sent) "_meta"; get meta "source") = Normal (VStr "hosted-fields") /\
    (creditCard ← get (data sent) "creditCard";
     cardOptions ← get creditCard "options";
     get cardOptions "validate")
    = Normal (VBool (match vault options with VBool true => true | _ => false end)).
Proof.
  intros Hempty Hvalid.
  destruct (handler_requests_submitted client cardForm options Hempty Hvalid)
    as (w & _ & ->).
  eexists. split; [reflexivity|].
  cbn [api method endpoint data]. repeat (split; [reflexivity|]).
  unfold requestData. destruct (truthy w); simpl.
  - split; [reflexivity|]. by rewrite own_assign_prop_eq.
  - split; [reflexivity|]. by rewrite own_assign_prop_eq.
Qed.

Lemma createTokenizationHandler_request_witness :
  exists sent,
    requests (createTokenizationHandler (env := Sample.collaborators)
                (Fulfilled Sample.acceptingClient) Scenario.validForm
                Scenario.vaultingRequest) = [sent] /\
    (creditCard ← get (data sent) "creditCard";
     cardOptions ← get creditCard "options";
     get cardOptions "validate") = Normal (VBool true).
Proof.
  destruct (createTokenizationHandler_request (env := Sample.collaborators)
              Sample.acceptingClient Scenario.validForm Scenario.vaultingRequest)
    as (sent & Hsent & _ & _ & _ & _ & Hvalidate).
  - reflexivity.
  - reflexivity.
  - exists sent. split; [exact Hsent | exact Hvalidate].
Defined.



(** X4. A response that has no first instrument record (no [creditCards],
    an empty list, or a first entry that is [undefined] or [null]) is not
    answered as a success: the handler sends the failure event and replies
    with the network error, whose original error is the TypeError of the
    failed read. *)
Theorem createTokenizationHandler_malformed_response `{env : Collaborators}
    (client : Client) (cardForm : CardForm) (options : TokenizationRequest)
    (response : value) :
  isEmpty cardForm (fieldsToTokenize options) = false ->
  invalidFieldKeys cardForm (fieldsToTokenize options) = [] ->
  (forall sent, request client sent = Fulfilled response) ->
  (exists exn, (creditCards ← get response "creditCards"; get creditCards "0") = Throw exn) \/
  (creditCards ← get response "creditCards"; get creditCards "0") = Normal VUndefined \/
  (creditCards ← get response "creditCards"; get creditCards "0") = Normal VNull ->
  exists sent,
    createTokenizationHandler (Fulfilled client) cardForm options
    = [Request sent;
       SendEvent "custom.hosted-fields.tokenization.failed";
       Reply (VArr [with_original_error HOSTED_FIELDS_TOKENIZATION_NETWORK_ERROR
                      (TypeError "Cannot read properties of undefined or null")])].
Proof.
  intros Hempty Hvalid Hresponse Hrecord.
  destruct (handler_submits client cardForm options Hempty Hvalid)
    as (w & sent & _ & _ & ->).
  exists sent. rewrite Hresponse.
  assert (onTokenized response
          = Throw (TypeError "Cannot read properties of undefined or null")) as ->.
  { unfold onTokenized.
    destruct (get response "creditCards") as [creditCards | exn0] eqn:Hcards.
    - cbn [mbind completion_bind] in *.
      destruct Hrecord as [[exn Hthrow] | [Hnone | Hnone]].
      + rewrite Hthrow. cbn. f_equal. by eapply get_throws_TypeError.
      + by rewrite Hnone.
      + by rewrite Hnone.
    - cbn. f_equal. by eapply get_throws_TypeError. }
  reflexivity.
Qed.

Lemma createTokenizationHandler_malformed_response_witness :
  exists sent,
    createTokenizationHandler (env := Sample.collaborators)
      (Fulfilled (Scenario.answering (VObj [("creditCards", VArr [])]%string)))
      Scenario.validForm Scenario.vaultingRequest
    = [Request sent;
       SendEvent "custom.hosted-fields.tokenization.failed";
       Reply (VArr [with_original_error
                      (HOSTED_FIELDS_TOKENIZATION_NETWORK_ERROR
                         (Collaborators := Sample.collaborators))
                      (TypeError "Cannot read properties of undefined or null")])].
Proof.
  apply (createTokenizationHandler_malformed_response (env := Sample.collaborators)
           (Scenario.answering (VObj [("creditCards", VArr [])]%string))
           Scenario.validForm Scenario.vaultingRequest
           (VObj [("creditCards", VArr [])]%string)).
  - reflexivity.
  - reflexivity.
  - intros sent. reflexivity.
  - right. left. reflexivity.
Defined.

(** X5. From a response whose first instrument record is an object, the
    result replied holds that record's [nonce], [details], [description],
    [type] and [binData] (absent ones as [undefined]), then its
    [authenticationInsight] when that is truthy, and nothing else of the
    record; the success event is sent before the reply. *)
Theorem createTokenizationHandler_result `{env : Collaborators}
    (client : Client) (cardForm : CardForm) (options : TokenizationRequest)
    (response : value) (record : props) :
  isEmpty cardForm (fieldsToTokenize options) = false ->
  invalidFieldKeys cardForm (fieldsToTokenize options) = [] ->
  (forall sent, request client sent = Fulfilled response) ->
  (creditCards ← get response "creditCards"; get creditCards "0") = Normal (VObj record) ->
  let field := fun key : string => default VUndefined (own record key) in
  exists sent,
    createTokenizationHandler (Fulfilled client) cardForm options
    = [Request sent;
       SendEvent "custom.hosted-fields.tokenization.succeeded";
       Reply (VArr [VNull;
                    VObj ([("nonce", field "nonce");
                           ("details", field "details");
                           ("description", field "description");
                           ("type", field "type");
                           ("binData", field "binData")]
                          ++ if truthy (field "authenticationInsight")
                             then [("authenticationInsight", field "authenticationInsight")]
                             else [])])]%string.
Proof.
  intros Hempty Hvalid Hresponse Hrecord field.
  destruct (handler_submits client cardForm options Hempty Hvalid)
    as (w & sent & _ & _ & ->).
  exists sent. rewrite Hresponse.
  unfold onTokenized.
  destruct (get response "creditCards") as [creditCards | exn0]; [|discriminate].
  cbn [mbind completion_bind] in *. rewrite Hrecord. cbn.
  fold (field "authenticationInsight").
  by destruct (truthy (field "authenticationInsight")).
Qed.

Lemma createTokenizationHandler_result_witness :
  exists sent,
    createTokenizationHandler (env := Sample.collaborators)
      (Fulfilled Sample.acceptingClient) Scenario.validForm Scenario.vaultingRequest
    = [Request sent;
       SendEvent "custom.hosted-fields.tokenization.succeeded";
       Reply (VArr [VNull; Sample.card])].
Proof.
  destruct (createTokenizationHandler_result (env := Sample.collaborators)
              Sample.acceptingClient Scenario.validForm Scenario.vaultingRequest
              (VObj [("creditCards", VArr [Sample.card])]%string)
              [("nonce", VStr "a-nonce");
               ("details", VObj [("lastTwo", VStr "11")]);
               ("description", VStr "ending in 11");
               ("type", VStr "CreditCard");
               ("binData", VObj [])]%string) as [sent Htrace].
  - reflexivity.
  - reflexivity.
  - intros sent. reflexivity.
  - reflexivity.
  - exists sent. exact Htrace.
Defined.

(** ** The classifier, continued *)

(** X6. For a status below 500 other than 403, a nested code that the
    table lists yields what [convertToBraintreeError] makes of the root
    error and the table's entry.  The code is looked up by its string
    form, so the number 81724 and the string "81724" find the same
    entry. *)
Theorem formatTokenizationError_known_code `{env : Collaborators}
    (err rootError code : value) (n : Z) (entry : ErrorDescriptor) :
  status_of err = Normal (VNum n) -> n < 500 -> n <> 403 ->
  findRootError err = Normal rootError ->
  nested_code rootError = Normal code ->
  tokenizationErrorCodes !! ToString code = Some entry ->
  formatTokenizationError err = Normal (convertToBraintreeError rootError entry).
Proof.
  intros Hs Hlt Hne Hroot Hnested Hentry.
  unfold formatTokenizationError. rewrite Hs. simpl.
  destruct (n =? 403) eqn:E; [lia|].
  unfold less_than_num. simpl.
  destruct (n <? 500) eqn:E'; [|lia].
  unfold extract. by rewrite Hroot, Hnested, Hentry.
Qed.

Lemma formatTokenizationError_known_code_witness :
  let classify := formatTokenizationError (env := Sample.collaborators) in
  let convert := convertToBraintreeError (Collaborators := Sample.collaborators) in
  let duplicate := Sample.errors "HOSTED_FIELDS_TOKENIZATION_FAIL_ON_DUPLICATE" "Duplicate card." in
  classify (Sample.failure (VNum 422) (Sample.gatewayError (VStr "81724")))
  = Normal (convert (Sample.gatewayError (VStr "81724")) duplicate) /\
  classify (Sample.failure (VNum 422) (Sample.gatewayError (VNum 81724)))
  = Normal (convert (Sample.gatewayError (VNum 81724)) duplicate).
Proof.
  split.
  - apply (formatTokenizationError_known_code (env := Sample.collaborators)
             _ _ (VStr "81724") 422); try reflexivity; lia.
  - apply (formatTokenizationError_known_code (env := Sample.collaborators)
             _ _ (VNum 81724) 422); try reflexivity; lia.
Defined.

(** X7. The classifier throws exactly when it is given [undefined] or
    [null]; on every other value it returns, whatever the collaborators
    do. *)
Theorem formatTokenizationError_throws_iff `{env : Collaborators} (err : value) :
  (exists exn, formatTokenizationError err = Throw exn) <->
  err = VUndefined \/ err = VNull.
Proof.
  split.
  - intros [exn Hthrow].
    destruct err; [by left | by right | exfalso ..];
      (edestruct formatTokenizationError_returns as [fe Hfe];
       [| | rewrite Hfe in Hthrow; discriminate]; discriminate).
  - intros [-> | ->]; eexists; reflexivity.
Qed.

(** X8. A status of [null] is not a missing status.  When [details] is
    [null], or [details.httpStatus] is [null], the comparison
    [null < 500] holds, so the failure is classified like a client error:
    with no listed code it becomes a failed tokenization, not a network
    error. *)
Theorem formatTokenizationError_null_status `{env : Collaborators} (o : props) :
  own o "details" = Some VNull \/
  (exists d, own o "details" = Some (VObj d) /\ own d "httpStatus" = Some VNull) ->
  tokenizationErrorCodes !! ToString (extract (VObj o)).2 = None ->
  formatTokenizationError (VObj o)
  = Normal (with_original_error HOSTED_FIELDS_FAILED_TOKENIZATION (VObj o)).
Proof.
  intros Hnull Hcode.
  assert (status_of (VObj o) = Normal VNull) as Hs.
  { unfold status_of. simpl. destruct Hnull as [-> | (d & -> & Hd)]; simpl; [done|].
    by rewrite Hd. }
  unfold formatTokenizationError. rewrite Hs. simpl.
  destruct (extract (VObj o)) as [rootError code]. simpl in Hcode. by rewrite Hcode.
Qed.

Lemma formatTokenizationError_null_status_witness :
  let err := Sample.failure VNull (VObj []) in
  formatTokenizationError (env := Sample.collaborators) err
  = Normal (with_original_error
              (HOSTED_FIELDS_FAILED_TOKENIZATION (Collaborators := Sample.collaborators)) err).
Proof.
  apply (formatTokenizationError_null_status (env := Sample.collaborators)).
  - right. eexists. split; reflexivity.
  - reflexivity.
Defined.

(** ** Merging card data, continued *)

(** The merged data, key by key. *)
Lemma mergeCardData_key (cardData : gmap string value)
    (options : TokenizationRequest) (key : string) :
  mergeCardData cardData options !! key = mergedField cardData options key.
Proof.
  unfold mergeCardData, mergedField, assign. cbn [foldl].
  rewrite !(right_id_L ∅ (∪)). cbn [default]. unfold id.
  rewrite lookup_union.
  assert (forall billing : gmap string value,
            foldl (fun remaining field =>
                     if (indexOf ALLOWED_BILLING_ADDRESS_FIELDS field =? -1)
                        || bool_decide (is_Some (cardData !! field))
                     then delete field remaining
                     else remaining)
                  billing (keys billing) !! key ∪ cardData !! key
            = match cardData !! key with
              | Some v => Some v
              | None =>
                  if bool_decide (key ∈ ALLOWED_BILLING_ADDRESS_FIELDS)
                  then billing !! key
                  else None
              end) as Hrest.
  { intros billing. rewrite lookup_admitted.
    destruct (cardData !! key) as [v|] eqn:Hcard.
    - rewrite (bool_decide_eq_true_2 (is_Some (Some v))) by eauto.
      by rewrite andb_false_r.
    - rewrite (bool_decide_eq_false_2 (is_Some None)) by (by intros [? ?]).
      rewrite andb_true_r.
      destruct (bool_decide (key ∈ ALLOWED_BILLING_ADDRESS_FIELDS)); [|done].
      match goal with |- ?o ∪ None = ?o => by destruct o end. }
  destruct (truthy (cardholderName options)) eqn:Hname; cbn [andb]; [|apply Hrest].
  destruct (String.eqb_spec key "cardholderName") as [-> | Hne].
  - rewrite lookup_insert_eq. by destruct (cardData !! "cardholderName"%string).
  - rewrite lookup_insert_ne by congruence. apply Hrest.
Qed.

Lemma cardholderName_not_allowed :
  "cardholderName"%string ∉ ALLOWED_BILLING_ADDRESS_FIELDS.
Proof.
  unfold ALLOWED_BILLING_ADDRESS_FIELDS.
  rewrite !elem_of_cons, elem_of_nil. intuition discriminate.
Qed.

(** X9. Merging is idempotent: merging the same caller data into the
    merged result again changes nothing. *)
Theorem mergeCardData_idempotent (cardData : gmap string value)
    (options : TokenizationRequest) :
  mergeCardData (mergeCardData cardData options) options
  = mergeCardData cardData options.
Proof.
  apply map_eq. intros key. rewrite (mergeCardData_key (mergeCardData cardData options)).
  unfold mergedField at 1. rewrite mergeCardData_key.
  unfold mergedField.
  destruct (truthy (cardholderName options) && String.eqb key "cardholderName"); [done|].
  destruct (cardData !! key); [done|].
  by destruct (bool_decide (key ∈ ALLOWED_BILLING_ADDRESS_FIELDS));
    [destruct (default ∅ (billingAddress options) !! key)|].
Qed.

(** X10. With no billing address (absent or empty) and no cardholder name,
    the card data comes back as it is. *)
Theorem mergeCardData_nothing_supplied (cardData : gmap string value)
    (options : TokenizationRequest) :
  default ∅ (billingAddress options) = ∅ ->
  truthy (cardholderName options) = false ->
  mergeCardData cardData options = cardData.
Proof.
  intros Hbilling Hname. apply map_eq. intros key.
  rewrite mergeCardData_key. unfold mergedField.
  rewrite Hname, Hbilling, lookup_empty. cbn [andb].
  destruct (cardData !! key); [done|].
  by destruct (bool_decide (key ∈ ALLOWED_BILLING_ADDRESS_FIELDS)).
Qed.

Lemma mergeCardData_nothing_supplied_witness :
  let cardData : gmap string value := {[ "number"%string := VStr "4111111111111111" ]} in
  mergeCardData cardData
    {| fieldsToTokenize := None;
       billingAddress := None;
       cardholderName := VStr "";
       vault := VBool false;
       authenticationInsight := VUndefined |}
  = cardData.
Proof.
  intros cardData. apply mergeCardData_nothing_supplied; reflexivity.
Defined.

(** X11. The keys of the merged data are the keys of the card data, the
    allow-listed keys of the billing address, and [cardholderName] when a
    name is supplied.  No card-data key is lost and no other key
    appears. *)
Theorem mergeCardData_dom (cardData : gmap string value)
    (options : TokenizationRequest) :
  dom (mergeCardData cardData options)
  = dom cardData
    ∪ filter (fun key => key ∈ ALLOWED_BILLING_ADDRESS_FIELDS)
             (dom (default ∅ (billingAddress options)))
    ∪ (if truthy (cardholderName options) then {[ "cardholderName"%string ]} else ∅).
Proof.
  apply set_eq. intros key.
  rewrite elem_of_dom, mergeCardData_key, !elem_of_union, elem_of_filter, !elem_of_dom.
  unfold mergedField.
  destruct (truthy (cardholderName options)) eqn:Hname; cbn [andb].
  - destruct (String.eqb_spec key "cardholderName") as [-> | Hne].
    + split; [intros _; right; by apply elem_of_singleton | eauto].
    + rewrite elem_of_singleton.
      destruct (cardData !! key) as [v|].
      * split; [intros _; left; left; eauto | eauto].
      * case_bool_decide as Hallowed.
        -- split; [intros Hb; left; right; done|].
           intros [[[? Hv] | [_ Hb]] | Heq]; [discriminate | done | done].
        -- split; [by intros [? ?]|].
           intros [[[? Hv] | [Hin _]] | Heq]; [discriminate | done | done].
  - rewrite elem_of_empty.
    destruct (cardData !! key) as [v|].
    + split; [intros _; left; left; eauto | eauto].
    + case_bool_decide as Hallowed.
      * split; [intros Hb; left; right; done|].
        intros [[[? Hv] | [_ Hb]] | []]; [discriminate | done].
      * split; [by intros [? ?]|].
        intros [[[? Hv] | [Hin _]] | []]; [discriminate | done].
Qed.

(** ** Supported card brands, continued *)

Section BrandsContinued.
Context `{env : Collaborators}.

(** The merged acceptance set, key by key. *)
Lemma getSupportedCardBrands_key (client : Client)
    (merchant : option (list (string * bool))) (brand : string) :
  getSupportedCardBrands client merchant !! brand
  = mergedAcceptance normalizeCardType
      (default [] (supportedCardTypes <$> creditCards (gatewayConfiguration client)))
      (default [] merchant) brand.
Proof.
  unfold getSupportedCardBrands, mergedAcceptance.
  rewrite lookup_override, lookup_accept_all, lookup_empty.
  by destruct (creditCards (gatewayConfiguration client)).
Qed.

End BrandsContinued.

(** X12. Only the set of brands the gateway lists matters: two clients
    whose lists have the same members, in any order and with any
    repetitions, give the same acceptance set. *)
Theorem getSupportedCardBrands_gateway_set `{env : Collaborators}
    (client1 client2 : Client) (types1 types2 : list string)
    (merchant : option (list (string * bool))) :
  creditCards (gatewayConfiguration client1) = Some {| supportedCardTypes := types1 |} ->
  creditCards (gatewayConfiguration client2) = Some {| supportedCardTypes := types2 |} ->
  (forall cardType : string, cardType ∈ types1 <-> cardType ∈ types2) ->
  getSupportedCardBrands client1 merchant = getSupportedCardBrands client2 merchant.
Proof.
  intros H1 H2 Hsame. apply map_eq. intros brand.
  rewrite !getSupportedCardBrands_key, H1, H2. unfold mergedAcceptance.
  destruct (merchantOverride normalizeCardType (default [] merchant) brand); [done|].
  change (default [] (supportedCardTypes <$> Some {| supportedCardTypes := types1 |}))
    with types1.
  change (default [] (supportedCardTypes <$> Some {| supportedCardTypes := types2 |}))
    with types2.
  apply (f_equal (fun d : bool => if d then Some true else None)).
  apply bool_decide_ext. rewrite !list_elem_of_fmap.
  split; intros (cardType & -> & Hin); exists cardType; (split; [done|]); by apply Hsame.
Qed.

Lemma getSupportedCardBrands_gateway_set_witness :
  getSupportedCardBrands (env := Sample.collaborators) Sample.acceptingClient None
  = getSupportedCardBrands (env := Sample.collaborators)
      {| request := request Sample.acceptingClient;
         gatewayConfiguration :=
           {| creditCards :=
                Some {| supportedCardTypes := ["mastercard"; "visa"; "visa"]%string |} |} |}
      None.
Proof.
  apply (getSupportedCardBrands_gateway_set (env := Sample.collaborators)
           _ _ ["visa"; "mastercard"]%string ["mastercard"; "visa"; "visa"]%string).
  - reflexivity.
  - reflexivity.
  - intros cardType. rewrite !elem_of_cons, !elem_of_nil. tauto.
Defined.

(** X13. Without a merchant configuration (absent or empty), the set holds
    the normalized gateway brands and accepts each of them; when the
    gateway configuration has no credit-card section either, the set is
    empty. *)
Theorem getSupportedCardBrands_gateway_only `{env : Collaborators}
    (client : Client) (merchant : option (list (string * bool))) :
  default [] merchant = [] ->
  (forall brand : string,
     getSupportedCardBrands client merchant !! brand
     = if bool_decide
            (brand ∈ normalizeCardType
               <$> default [] (supportedCardTypes <$> creditCards (gatewayConfiguration client)))
       then Some true else None) /\
  (creditCards (gatewayConfiguration client) = None ->
   getSupportedCardBrands client merchant = ∅).
Proof.
  intros Hmerchant.
  assert (forall brand : string,
     getSupportedCardBrands client merchant !! brand
     = if bool_decide
            (brand ∈ normalizeCardType
               <$> default [] (supportedCardTypes <$> creditCards (gatewayConfiguration client)))
       then Some true else None) as Hkey.
  { intros brand. rewrite getSupportedCardBrands_key, Hmerchant. reflexivity. }
  split; [exact Hkey|].
  intros Hnone. apply map_eq. intros brand. rewrite Hkey, Hnone, lookup_empty.
  case_bool_decide as Hin; [|done]. by apply elem_of_nil in Hin.
Qed.

Lemma getSupportedCardBrands_gateway_only_witness :
  getSupportedCardBrands (env := Sample.collaborators) Sample.decliningClient (Some [])
  = ∅.
Proof.
  apply (getSupportedCardBrands_gateway_only (env := Sample.collaborators)
           Sample.decliningClient (Some [])); reflexivity.
Defined.

(** X14. The merchant has the last word: the flag of the last configured
    key decides that key's brand, so a flag of [false] on a brand the
    gateway supports leaves the brand not accepted. *)
Theorem getSupportedCardBrands_last_word `{env : Collaborators}
    (client : Client) (earlier : list (string * bool)) (brand : string) (flag : bool) :
  getSupportedCardBrands client (Some (earlier ++ [(brand, flag)]))
    !! normalizeCardType brand
  = Some flag.
Proof.
  unfold getSupportedCardBrands. cbn [default]. unfold id.
  rewrite foldl_snoc. apply lookup_insert_eq.
Qed.

(** X15. The brands of the set are the normalized gateway brands together
    with the normalized keys of the merchant configuration. *)
Theorem getSupportedCardBrands_dom `{env : Collaborators}
    (client : Client) (merchant : option (list (string * bool))) :
  dom (getSupportedCardBrands client merchant)
  = list_to_set
      (normalizeCardType
         <$> default [] (supportedCardTypes <$> creditCards (gatewayConfiguration client)))
    ∪ list_to_set (normalizeCardType <$> (default [] merchant).*1).
Proof.
  apply set_eq. intros brand.
  rewrite elem_of_dom, getSupportedCardBrands_key, elem_of_union, !elem_of_list_to_set.
  unfold mergedAcceptance, merchantOverride.
  set (matching := List.filter
         (fun entry : string * bool => String.eqb (normalizeCardType entry.1) brand)
         (default [] merchant)).
  assert (brand ∈ normalizeCardType <$> (default [] merchant).*1 <-> matching <> []) as Hmatch.
  { subst matching. rewrite <- list_fmap_compose, list_elem_of_fmap. split.
    - intros ([b f] & -> & Hin) Hnil.
      assert (In (b, f) (List.filter
                (fun entry : string * bool =>
                   String.eqb (normalizeCardType entry.1) (normalizeCardType b))
                (default [] merchant))) as Hfiltered.
      { apply filter_In. split; [by apply list_elem_of_In|]. apply String.eqb_refl. }
      simpl in Hnil. rewrite Hnil in Hfiltered. destruct Hfiltered.
    - intros Hne. destruct (List.filter _ _) as [|[b f] rest] eqn:Hfilter; [done|].
      assert (In (b, f) (List.filter
                (fun entry : string * bool => String.eqb (normalizeCardType entry.1) brand)
                (default [] merchant))) as Hfiltered by (rewrite Hfilter; by left).
      apply filter_In in Hfiltered as [Hin Heq].
      exists (b, f). split; [|by apply list_elem_of_In].
      simpl. symmetry. by apply String.eqb_eq. }
  destruct (last matching) as [[b f]|] eqn:Hlast; cbn [fmap option_fmap option_map].
  - split; [intros _; right|eauto]. apply Hmatch. intros Hnil. by rewrite Hnil in Hlast.
  - apply last_None in Hlast. case_bool_decide as Hgateway.
    + split; [by left | eauto].
    + split; [by intros [? ?]|]. intros [Hin | Hin]; [done|].
      by apply Hmatch in Hin.
Qed.

(** ** The autofill subscriber, continued *)

Lemma resetPlaceholder_attributes (fc : FieldComponent) :
  element_attributes (resetPlaceholder fc) = element_attributes fc /\
  shouldMask (resetPlaceholder fc) = shouldMask fc /\
  element_value (resetPlaceholder fc) = element_value fc.
Proof.
  unfold resetPlaceholder.
  destruct (element_attributes fc !! "placeholder"%string) as [text|] eqn:Hplaceholder;
    [|done].
  destruct (filled (Some text)); [|done]. simpl.
  split; [|done]. rewrite insert_insert_eq. by apply insert_id.
Qed.

(** What [applyAutofill] leaves behind. *)
Lemma applyAutofill_effects (v : string) (fc : FieldComponent) :
  performed (applyAutofill v fc)
  = performed fc
    ++ [UpdateModel "value" v; if shouldMask fc then MaskValue v else SetValue v]
    ++ match element_attributes fc !! "placeholder"%string with
       | Some text =>
           if filled (Some text)
           then [SetAttribute "placeholder" ""; SetAttribute "placeholder" text]
           else []
       | None => []
       end /\
  element_value (applyAutofill v fc) = (if shouldMask fc then element_value fc else v) /\
  element_attributes (applyAutofill v fc) = element_attributes fc /\
  shouldMask (applyAutofill v fc) = shouldMask fc.
Proof.
  unfold applyAutofill.
  set (written := if shouldMask (updateModel "value" v fc)
                  then maskValue v (updateModel "value" v fc)
                  else set_element_value v (updateModel "value" v fc)).
  assert (performed written
          = performed fc ++ [UpdateModel "value" v;
                             if shouldMask fc then MaskValue v else SetValue v] /\
          element_value written = (if shouldMask fc then element_value fc else v) /\
          element_attributes written = element_attributes fc /\
          shouldMask written = shouldMask fc) as (Hlog & Hvalue & Hattrs & Hmask).
  { subst written. cbn [updateModel perform shouldMask].
    destruct (shouldMask fc) eqn:Hflag; cbn; rewrite ?Hflag, <- ?app_assoc; done. }
  destruct (resetPlaceholder_attributes written) as (Hattrs' & Hmask' & Hvalue').
  rewrite Hattrs', Hmask', Hvalue', Hattrs, Hmask, Hvalue.
  split; [|done].
  unfold resetPlaceholder. rewrite Hattrs.
  destruct (element_attributes fc !! "placeholder"%string) as [text|];
    [|by rewrite Hlog, app_nil_r].
  destruct (filled (Some text)); [|by rewrite Hlog, app_nil_r].
  simpl. rewrite Hlog. by rewrite <- !app_assoc.
Qed.

(** The subscriber either does nothing or applies one non-empty value. *)
Lemma autofillHandler_cases (thisFullYear : Z) (name : string)
    (fc : FieldComponent) (payload : option AutofillPayload) :
  autofillHandler thisFullYear name fc payload = fc \/
  exists v, filled (Some v) = true /\
            autofillHandler thisFullYear name fc payload = applyAutofill v fc.
Proof.
  unfold autofillHandler.
  destruct payload as [[mo ye cv]|]; [|by left]. cbn [month year cvv].
  destruct mo as [mo|]; [|by left]. destruct ye as [ye|]; [|by left].
  destruct (negb (filled (Some mo)) || negb (filled (Some ye))); [by left|].
  match goal with
  | |- context [match ?candidate with Some _ => _ | None => _ end] =>
      destruct candidate as [v|]; [|by left]
  end.
  destruct (filled (Some v)) eqn:Hv; [right; eauto | by left].
Qed.

(** X16. Whatever the payload and the surface, the subscriber leaves the
    element's attributes as they were (the placeholder is written twice
    and ends up with its old text) and never changes the mask flag. *)
Theorem autofillHandler_preserves (thisFullYear : Z) (name : string)
    (fc : FieldComponent) (payload : option AutofillPayload) :
  element_attributes (autofillHandler thisFullYear name fc payload)
  = element_attributes fc /\
  shouldMask (autofillHandler thisFullYear name fc payload) = shouldMask fc.
Proof.
  destruct (autofillHandler_cases thisFullYear name fc payload) as [-> | (v & _ & ->)];
    [done|].
  destruct (applyAutofill_effects v fc) as (_ & _ & Hattrs & Hmask). done.
Qed.

(** X17. When the subscriber acts, it makes these calls and no others, in
    this order: [updateModel('value', v)] for one non-empty [v]; then
    [maskValue(v)] on a masked field, or the assignment of [v] to the
    element's value on an unmasked one; then, if the element has a
    non-empty placeholder, the placeholder set to the empty string and
    back.  Earlier calls are kept, and a masked field's display value is
    never assigned. *)
Theorem autofillHandler_calls (thisFullYear : Z) (name : string)
    (fc : FieldComponent) (payload : option AutofillPayload) :
  let after := autofillHandler thisFullYear name fc payload in
  after = fc \/
  exists v,
    filled (Some v) = true /\
    performed after
    = performed fc
      ++ [UpdateModel "value" v; if shouldMask fc then MaskValue v else SetValue v]
      ++ match element_attributes fc !! "placeholder"%string with
         | Some text =>
             if filled (Some text)
             then [SetAttribute "placeholder" ""; SetAttribute "placeholder" text]
             else []
         | None => []
         end /\
    element_value after = (if shouldMask fc then element_value fc else v).
Proof.
  intros after. subst after.
  destruct (autofillHandler_cases thisFullYear name fc payload) as [-> | (v & Hv & ->)];
    [by left|].
  right. exists v. destruct (applyAutofill_effects v fc) as (Hlog & Hvalue & _). done.
Qed.

(** X18. With a month and a year in the payload, the expiration-month
    surface applies the month and the cvv surface applies a non-empty
    cvv.  A year whose length is not 2 is taken as it is: the
    expiration-year surface applies it unchanged and the expiration-date
    surface applies month, [" / "] and that year. *)
Theorem autofillHandler_surfaces (thisFullYear : Z) (fc : FieldComponent)
    (m y : string) (c : option string) :
  filled (Some m) = true -> filled (Some y) = true ->
  let payload := Some {| month := Some m; year := Some y; cvv := c |} in
  autofillHandler thisFullYear "expirationMonth" fc payload = applyAutofill m fc /\
  (forall code, c = Some code -> filled c = true ->
     autofillHandler thisFullYear "cvv" fc payload = applyAutofill code fc) /\
  (String.length y <> 2%nat ->
   autofillHandler thisFullYear "expirationYear" fc payload = applyAutofill y fc /\
   autofillHandler thisFullYear "expirationDate" fc payload
   = applyAutofill (m +:+ " / " +:+ y) fc).
Proof.
  intros Hm Hy payload. subst payload.
  split; [|split].
  - unfold autofillHandler. cbn [month year cvv]. rewrite Hm, Hy.
    cbn [negb orb String.eqb Ascii.eqb Bool.eqb andb]. by rewrite Hm.
  - intros code -> Hc. unfold autofillHandler. cbn [month year cvv]. rewrite Hm, Hy.
    cbn [negb orb String.eqb Ascii.eqb Bool.eqb andb]. rewrite Hc. cbn iota. by rewrite Hc.
  - intros Hlen.
    assert (widenYear thisFullYear y = y) as Hwide.
    { unfold widenYear. by rewrite (proj2 (Nat.eqb_neq _ _) Hlen). }
    split.
    + rewrite autofillHandler_year; rewrite ?Hwide; done.
    + rewrite autofillHandler_date by done. by rewrite Hwide.
Qed.

Lemma autofillHandler_surfaces_witness :
  let payload := Some {| month := Some "07"; year := Some "2031"; cvv := Some "123" |}%string in
  autofillHandler 2026 "expirationMonth" Scenario.maskedField payload
  = applyAutofill "07" Scenario.maskedField /\
  autofillHandler 2026 "cvv" Scenario.maskedField payload
  = applyAutofill "123" Scenario.maskedField /\
  autofillHandler 2026 "expirationDate" Scenario.maskedField payload
  = applyAutofill "07 / 2031" Scenario.maskedField.
Proof.
  intros payload.
  destruct (autofillHandler_surfaces 2026 Scenario.maskedField "07" "2031" (Some "123"%string))
    as (Hmonth & Hcvv & Hyear).
  - reflexivity.
  - reflexivity.
  - split; [exact Hmonth|]. split.
    + apply (Hcvv "123"%string); reflexivity.
    + apply Hyear. discriminate.
Defined.

(** ** Watching the companion inputs *)

Lemma eqb_differs (a b : string) : negb (String.eqb a b) = false <-> a = b.
Proof. rewrite negb_false_iff. apply String.eqb_eq. Qed.

(** The value of the cache that matches the inputs. *)
Lemma check_unchanged_iff (inputs : MockInputs) (watch : AutofillWatch) :
  negb (String.eqb (cachedMonth (cachedValues watch)) (expMonthInput inputs))
  || negb (String.eqb (cachedYear (cachedValues watch)) (expYearInput inputs))
  || negb (String.eqb (cachedCvv (cachedValues watch)) (cvvInput inputs)) = false
  <-> cachedValues watch
      = {| cachedMonth := expMonthInput inputs;
           cachedYear := expYearInput inputs;
           cachedCvv := cvvInput inputs |}.
Proof.
  rewrite !orb_false_iff, !eqb_differs.
  destruct (cachedValues watch) as [cm cy cc]. simpl. split.
  - intros [[-> ->] ->]. done.
  - intros [= -> -> ->]. done.
Qed.

(** A check brings the cache up to date, and does nothing when it already
    was. *)
Lemma check_cache (inputs : MockInputs) (watch : AutofillWatch) :
  cachedValues (checkForNewAutofillData inputs watch)
  = {| cachedMonth := expMonthInput inputs;
       cachedYear := expYearInput inputs;
       cachedCvv := cvvInput inputs |} /\
  (cachedValues watch
   = {| cachedMonth := expMonthInput inputs;
        cachedYear := expYearInput inputs;
        cachedCvv := cvvInput inputs |} ->
   checkForNewAutofillData inputs watch = watch).
Proof.
  unfold checkForNewAutofillData.
  pose proof (check_unchanged_iff inputs watch) as Hiff.
  destruct (negb _ || negb _ || negb _) eqn:Hchanged.
  - split; [done|]. intros Hsame. apply Hiff in Hsame. discriminate.
  - split; [by apply Hiff | done].
Qed.

(** X19. After a check the cache holds the current values of the three
    inputs.  A check that finds the cache equal to them changes nothing
    and emits nothing; a check that finds any of the three different
    emits one payload with all three current values and leaves the form
    positioned [absolute], after passing through [relative]. *)
Theorem checkForNewAutofillData_check (inputs : MockInputs) (watch : AutofillWatch) :
  let current := {| cachedMonth := expMonthInput inputs;
                    cachedYear := expYearInput inputs;
                    cachedCvv := cvvInput inputs |} in
  let after := checkForNewAutofillData inputs watch in
  cachedValues after = current /\
  (cachedValues watch = current -> after = watch) /\
  (cachedValues watch <> current ->
   emitted after = emitted watch ++ [payloadOf inputs] /\
   style_position (watchedForm after) = "absolute"%string /\
   position_writes (watchedForm after)
   = position_writes (watchedForm watch) ++ ["relative"; "absolute"]%string).
Proof.
  intros current after. subst current after. unfold checkForNewAutofillData.
  pose proof (check_unchanged_iff inputs watch) as Hiff.
  destruct (negb _ || negb _ || negb _) eqn:Hchanged.
  - split; [done|]. split.
    + intros Hsame. apply Hiff in Hsame. discriminate.
    + intros _. simpl. split; [done|]. split; [done|]. by rewrite <- app_assoc.
  - split; [by apply Hiff|]. split; [done|].
    intros Hdiff. exfalso. apply Hdiff. by apply Hiff.
Qed.

Lemma checkForNewAutofillData_check_witness :
  let inputs := Scenario.autofilled "07" "31" "123" in
  let after := checkForNewAutofillData inputs (createInputsForAutofill Scenario.bareForm) in
  emitted after = [payloadOf inputs] /\
  checkForNewAutofillData inputs after = after.
Proof.
  intros inputs after.
  destruct (checkForNewAutofillData_check inputs (createInputsForAutofill Scenario.bareForm))
    as (Hcache & _ & Hchanged).
  destruct (checkForNewAutofillData_check inputs after) as (_ & Hsame & _).
  split.
  - apply Hchanged. discriminate.
  - apply Hsame. exact Hcache.
Defined.

(** X20. A second check on unchanged inputs does nothing: between two
    changes of the inputs at most one payload is emitted. *)
Theorem checkForNewAutofillData_settles (inputs : MockInputs) (watch : AutofillWatch) :
  checkForNewAutofillData inputs (checkForNewAutofillData inputs watch)
  = checkForNewAutofillData inputs watch.
Proof.
  apply check_cache. apply check_cache.
Qed.

(** X21. Over any number of checks, the payloads emitted before stay in
    place, at most one payload is added per check, and every payload
    added carries the values the inputs had at one of the checks. *)
Theorem watchInputs_emitted (snapshots : list MockInputs) (watch : AutofillWatch) :
  exists added : list AutofillPayload,
    emitted (watchInputs snapshots watch) = emitted watch ++ added /\
    (length added <= length snapshots)%nat /\
    forall payload, payload ∈ added ->
      exists inputs, inputs ∈ snapshots /\ payload = payloadOf inputs.
Proof.
  unfold watchInputs.
  induction snapshots as [|inputs snapshots IH] using rev_ind.
  - exists []. simpl. rewrite app_nil_r. split; [done|]. split; [done|].
    intros payload Hin. by apply elem_of_nil in Hin.
  - destruct IH as (added & Hadded & Hlen & Hfrom). rewrite foldl_snoc.
    set (before := foldl (fun w i => checkForNewAutofillData i w) watch snapshots) in *.
    unfold checkForNewAutofillData at 1.
    destruct (negb _ || negb _ || negb _).
    + exists (added ++ [payloadOf inputs]). simpl. rewrite Hadded, app_assoc.
      split; [done|]. split.
      * rewrite !length_app. simpl. lia.
      * intros payload Hin. apply elem_of_app in Hin as [Hin | Hin].
        -- destruct (Hfrom payload Hin) as (i & Hi & ->). exists i.
           split; [|done]. apply elem_of_app. by left.
        -- apply list_elem_of_singleton in Hin as ->. exists inputs.
           split; [|done]. apply elem_of_app. right. by apply list_elem_of_singleton.
    + exists added. split; [done|]. split.
      * rewrite length_app. simpl. lia.
      * intros payload Hin. destruct (Hfrom payload Hin) as (i & Hi & ->). exists i.
        split; [|done]. apply elem_of_app. by left.
Qed.

(** X22. A fresh watch stays silent as long as the three inputs are empty:
    nothing is emitted and the form is not touched. *)
Theorem watchInputs_silent (form : Form) (snapshots : list MockInputs) :
  (forall inputs, inputs ∈ snapshots ->
     expMonthInput inputs = ""%string /\ expYearInput inputs = ""%string /\
     cvvInput inputs = ""%string) ->
  watchInputs snapshots (createInputsForAutofill form) = createInputsForAutofill form.
Proof.
  unfold watchInputs. intros Hempty.
  induction snapshots as [|inputs snapshots IH] using rev_ind; [done|].
  rewrite foldl_snoc, IH.
  - destruct (Hempty inputs) as (Hm & Hy & Hc).
    { apply elem_of_app. right. by apply list_elem_of_singleton. }
    unfold checkForNewAutofillData. simpl. by rewrite Hm, Hy, Hc.
  - intros i Hi. apply Hempty. apply elem_of_app. by left.
Qed.

Lemma watchInputs_silent_witness :
  watchInputs [Scenario.autofilled "" "" ""; Scenario.autofilled "" "" ""]
    (createInputsForAutofill Scenario.bareForm)
  = createInputsForAutofill Scenario.bareForm.
Proof.
  apply watchInputs_silent. intros inputs Hin.
  repeat (apply elem_of_cons in Hin as [-> | Hin]; [done|]).
  by apply elem_of_nil in Hin.
Defined.

(** X23. A payload emitted while the month input or the year input is
    still empty changes no surface: autofill that fills in the cvv alone
    never reaches the cvv field. *)
Theorem payloadOf_partial_ignored (inputs : MockInputs) (thisFullYear : Z)
    (name : string) (fc : FieldComponent) :
  expMonthInput inputs = ""%string \/ expYearInput inputs = ""%string ->
  autofillHandler thisFullYear name fc (Some (payloadOf inputs)) = fc.
Proof.
  intros Hpartial. unfold autofillHandler, payloadOf. cbn [month year cvv].
  destruct Hpartial as [-> | ->]; [done|].
  by rewrite orb_true_r.
Qed.

Lemma payloadOf_partial_ignored_witness :
  autofillHandler 2026 "cvv" Scenario.maskedField
    (Some (payloadOf (Scenario.autofilled "" "" "123")))
  = Scenario.maskedField.
Proof. apply payloadOf_partial_ignored. by left. Defined.

(** ** Restricting card brands *)

(** X24. The card form is told about card brands only when the number
    field is configured with a merchant brand object or with
    [rejectUnsupportedCards]; then it receives the merged acceptance set
    and is asked to validate [number] again, in this order.  With
    [rejectUnsupportedCards] alone, the set is the gateway's brands, all
    accepted. *)
Theorem restrictCardBrands_calls `{env : Collaborators}
    (numberConfig : option NumberConfiguration) (client : Client) :
  let wanted :=
    match numberConfig with
    | Some number =>
        bool_decide (is_Some (supportedCardBrands number)) || rejectUnsupportedCards number
    | None => false
    end in
  (wanted = false -> restrictCardBrands numberConfig client = []) /\
  (wanted = true ->
   exists brands,
     restrictCardBrands numberConfig client
     = [SetSupportedCardTypes brands; ValidateField "number"] /\
     forall number, numberConfig = Some number ->
       brands = getSupportedCardBrands client (supportedCardBrands number) /\
       (supportedCardBrands number = None ->
        forall brand : string,
          brands !! brand
          = if bool_decide
                 (brand ∈ normalizeCardType
                    <$> default [] (supportedCardTypes
                                      <$> creditCards (gatewayConfiguration client)))
            then Some true else None)).
Proof.
  intros wanted. subst wanted. unfold restrictCardBrands.
  destruct numberConfig as [number|]; [|split; [done | discriminate]].
  destruct (bool_decide (is_Some (supportedCardBrands number)) || rejectUnsupportedCards number).
  - split; [discriminate|]. intros _. eexists. split; [reflexivity|].
    intros number' [= <-]. split; [reflexivity|].
    intros Hnone brand. rewrite getSupportedCardBrands_key, Hnone. reflexivity.
  - split; [done | discriminate].
Qed.

Lemma restrictCardBrands_calls_witness :
  restrictCardBrands (env := Sample.collaborators)
    (Some {| supportedCardBrands := None; rejectUnsupportedCards := true |})
    Sample.acceptingClient
  = [SetSupportedCardTypes {[ "visa"%string := true; "mastercard"%string := true ]};
     ValidateField "number"] /\
  restrictCardBrands (env := Sample.collaborators)
    (Some {| supportedCardBrands := None; rejectUnsupportedCards := false |})
    Sample.acceptingClient
  = [].
Proof.
  split.
  - destruct (proj2 (restrictCardBrands_calls (env := Sample.collaborators)
                       (Some {| supportedCardBrands := None; rejectUnsupportedCards := true |})
                       Sample.acceptingClient) eq_refl) as (brands & -> & Hbrands).
    destruct (Hbrands _ eq_refl) as [-> _]. vm_compute. reflexivity.
  - apply (proj1 (restrictCardBrands_calls (env := Sample.collaborators)
                    (Some {| supportedCardBrands := None; rejectUnsupportedCards := false |})
                    Sample.acceptingClient)). reflexivity.
Defined.
